(** * Calendar utilities of [core-js-dates-tasks.js]

    A shallow embedding of the date functions of the repository and of the
    part of the host's [Date] object they call, followed by the properties
    the specification states about them.

    The host is modelled after ECMA-262 (Date objects, "Day Number and Time
    within Day", "Year Number", "Month Number", "Date Number", "Week Day",
    [MakeTime], [MakeDay], [MakeDate]):

    - a JavaScript number is [NaN] or an integer ([number]): when the
      functions below are called with dates, date strings and integer
      counts, a fraction only occurs as the argument of [Math.floor] or
      [Math.ceil], which are modelled together with the division they are
      applied to, and no infinity occurs;
    - the time value of a [Date] is a [number]: milliseconds since
      1970-01-01T00:00:00Z, or [NaN] for an Invalid Date;
    - section [Host] describes a host whose offset from UTC does not change,
      away from the ends of the range of dates: local time is UTC shifted by
      a constant [LocalTZA] milliseconds, and time values are not clipped;
    - module [Zoned] describes the host in full: the offset
      [LocalTZA(t, isUTC)] depends on the instant, and time values beyond
      +-8.64e15 ms are clipped ([TimeClip]).  [getNextFriday] and
      [getWeekNumberByDate], which combine readings in UTC and in local
      time, are embedded over it as well. *)

From stdpp Require Import gmap strings list sorting pretty.
From Stdlib Require Import ZArith Lia Ascii.

Local Open Scope Z_scope.

(** ** Numbers *)

Inductive number : Type :=
  | NaN
  | Num (z : Z).

Definition number_add (a b : number) : number :=
  match a, b with
  | Num x, Num y => Num (x + y)
  | _, _ => NaN
  end.

Definition number_sub (a b : number) : number :=
  match a, b with
  | Num x, Num y => Num (x - y)
  | _, _ => NaN
  end.

(** Comparisons with [NaN] are false, as in JavaScript. *)
Definition number_le (a b : number) : bool :=
  match a, b with
  | Num x, Num y => x <=? y
  | _, _ => false
  end.

Definition number_ge (a b : number) : bool := number_le b a.

Definition number_gt (a b : number) : bool :=
  match a, b with
  | Num x, Num y => y <? x
  | _, _ => false
  end.

Definition number_eq (a b : number) : bool :=
  match a, b with
  | Num x, Num y => x =? y
  | _, _ => false
  end.

(** [Math.floor (a / b)] and [Math.ceil (a / b)] for an integer [a] and a
    positive integer constant [b]. *)
Definition floor_div (a : number) (b : Z) : number :=
  match a with
  | Num x => Num (x / b)
  | NaN => NaN
  end.

Definition ceil_div (a : number) (b : Z) : number :=
  match a with
  | Num x => Num (- ((- x) / b))
  | NaN => NaN
  end.

(** [String(n)] and template-literal interpolation of a number. *)
Definition ToString (n : number) : string :=
  match n with
  | Num z => pretty z
  | NaN => "NaN"
  end.

(** ** Strings *)

Definition digit_of (c : ascii) : option Z :=
  let n := Z.of_N (N_of_ascii c) in
  if (48 <=? n) && (n <=? 57) then Some (n - 48) else None.

Fixpoint digits_value (acc : Z) (s : string) : option Z :=
  match s with
  | EmptyString => Some acc
  | String c s' => d ← digit_of c; digits_value (10 * acc + d) s'
  end.

(** [ToNumber] on a string, for strings of decimal digits (the empty string
    is 0); every other string is taken to [NaN].  Signs, fractions,
    exponents, radix prefixes and surrounding white space are not
    represented. *)
Definition StringToNumber (s : string) : number :=
  match digits_value 0 s with
  | Some z => Num z
  | None => NaN
  end.

(** An array element taken by destructuring: a missing element is
    [undefined], whose numeric value is [NaN]. *)
Definition ToNumber (e : option string) : number :=
  match e with
  | Some s => StringToNumber s
  | None => NaN
  end.

(** [s.split(sep)] for a one-character separator. *)
Fixpoint split_go (sep : ascii) (cur : string) (s : string) : list string :=
  match s with
  | EmptyString => [cur]
  | String c s' =>
      if Ascii.eqb c sep then cur :: split_go sep "" s'
      else split_go sep (cur +:+ String c "") s'
  end.

Definition split (sep : ascii) (s : string) : list string := split_go sep "" s.

(** [s.slice(-2)]: the last two characters, or all of [s] when shorter. *)
Definition slice_last2 (s : string) : string :=
  let n := String.length s in
  String.substring (n - 2)%nat 2 s.

(** ** Day and time arithmetic (ECMA-262) *)

Definition msPerSecond : Z := 1000.
Definition msPerMinute : Z := 60000.
Definition msPerHour : Z := 3600000.
Definition msPerDay : Z := 86400000.

Definition Day (t : Z) : Z := t / msPerDay.
Definition TimeWithinDay (t : Z) : Z := t mod msPerDay.

Definition DaysInYear (y : Z) : Z :=
  if negb (y mod 4 =? 0) then 365
  else if negb (y mod 100 =? 0) then 366
  else if negb (y mod 400 =? 0) then 365
  else 366.

Definition DayFromYear (y : Z) : Z :=
  365 * (y - 1970) + (y - 1969) / 4 - (y - 1901) / 100 + (y - 1601) / 400.

Definition TimeFromYear (y : Z) : Z := msPerDay * DayFromYear y.

(** The largest [y] with [DayFromYear y <= d]: an estimate from the mean
    year length of the 400-year cycle, corrected by at most one. *)
Definition YearFromDay (d : Z) : Z :=
  let y := 1970 + (400 * d) / 146097 in
  if d <? DayFromYear y then y - 1
  else if DayFromYear (y + 1) <=? d then y + 1
  else y.

Definition YearFromTime (t : Z) : Z := YearFromDay (Day t).

Definition InLeapYear (t : Z) : Z :=
  if DaysInYear (YearFromTime t) =? 365 then 0 else 1.

Definition DayWithinYear (t : Z) : Z := Day t - DayFromYear (YearFromTime t).

Definition MonthFromTime (t : Z) : Z :=
  let d := DayWithinYear t in
  let leap := InLeapYear t in
  if d <? 31 then 0
  else if d <? 59 + leap then 1
  else if d <? 90 + leap then 2
  else if d <? 120 + leap then 3
  else if d <? 151 + leap then 4
  else if d <? 181 + leap then 5
  else if d <? 212 + leap then 6
  else if d <? 243 + leap then 7
  else if d <? 273 + leap then 8
  else if d <? 304 + leap then 9
  else if d <? 334 + leap then 10
  else 11.

Definition DateFromTime (t : Z) : Z :=
  let d := DayWithinYear t in
  let leap := InLeapYear t in
  match MonthFromTime t with
  | 0 => d + 1
  | 1 => d - 30
  | 2 => d - 58 - leap
  | 3 => d - 89 - leap
  | 4 => d - 119 - leap
  | 5 => d - 150 - leap
  | 6 => d - 180 - leap
  | 7 => d - 211 - leap
  | 8 => d - 242 - leap
  | 9 => d - 272 - leap
  | 10 => d - 303 - leap
  | _ => d - 333 - leap
  end.

Definition WeekDay (t : Z) : Z := (Day t + 4) mod 7.

Definition HourFromTime (t : Z) : Z := (t / msPerHour) mod 24.
Definition MinFromTime (t : Z) : Z := (t / msPerMinute) mod 60.
Definition SecFromTime (t : Z) : Z := (t / msPerSecond) mod 60.

Definition MakeTime (hour min sec ms : Z) : Z :=
  hour * msPerHour + min * msPerMinute + sec * msPerSecond + ms.

(** Day number of the first day of month [mn] (0..11) of a year, counted
    from January 1 of that year. *)
Definition DayOfMonthStart (leap mn : Z) : Z :=
  match mn with
  | 0 => 0
  | 1 => 31
  | 2 => 59 + leap
  | 3 => 90 + leap
  | 4 => 120 + leap
  | 5 => 151 + leap
  | 6 => 181 + leap
  | 7 => 212 + leap
  | 8 => 243 + leap
  | 9 => 273 + leap
  | 10 => 304 + leap
  | _ => 334 + leap
  end.

(** [MakeDay]: months outside 0..11 carry into the year, and the date
    counts days from the first of the month, so that a date outside the
    month runs into the neighbouring months. *)
Definition MakeDay (year month date : Z) : Z :=
  let ym := year + month / 12 in
  let mn := month mod 12 in
  let leap := if DaysInYear ym =? 365 then 0 else 1 in
  DayFromYear ym + DayOfMonthStart leap mn + date - 1.

Definition MakeDate (day time : Z) : Z := day * msPerDay + time.

(** ** The work schedule period *)

Record DatePeriod : Type := { start : string; end_ : string }.

(** ** The store of [Date] objects

    A [Date] object is a reference into a store that maps it to its time
    value.  Only [getNextFriday] is modelled over the store, because it
    writes into the object it is handed.  The other functions copy their
    argument ([new Date(date)]) and read the copy, or, as [getWorkSchedule]
    does with [currentDate], update a [Date] that they alone hold: they
    are functions of time values. *)

Definition loc : Type := positive.

Definition M (A : Type) : Type := gmap loc number → option (A * gmap loc number).

Definition ret {A : Type} (a : A) : M A := λ h, Some (a, h).

Definition bind {A B : Type} (m : M A) (k : A → M B) : M B :=
  λ h, match m h with
       | Some (a, h') => k a h'
       | None => None
       end.

Notation "x <~ m ;; k" := (bind m (λ x, k))
  (at level 100, m at next level, right associativity).

(** [new Date(src)] for a [Date] object [src]: a new object with the same
    time value. *)
Definition new_Date_copy (src : loc) : M loc :=
  λ h, match h !! src with
       | Some tv => let l := fresh (dom h) in Some (l, <[l := tv]> h)
       | None => None
       end.

(** A getter [get] called on the object [l]. *)
Definition Date_get (get : number → number) (l : loc) : M number :=
  λ h, match h !! l with
       | Some tv => Some (get tv, h)
       | None => None
       end.

(** A setter called on the object [l]: [set] maps the old time value to
    the new one, which is stored in the object and returned. *)
Definition Date_set (set : number → number) (l : loc) : M number :=
  λ h, match h !! l with
       | Some tv => Some (set tv, <[l := set tv]> h)
       | None => None
       end.

(** ** The [Date] methods, on time values *)

Section Host.

(** The local time zone adjustment, in milliseconds. *)
Variable LocalTZA : Z.

Definition LocalTime (t : Z) : Z := t + LocalTZA.
Definition UTC (t : Z) : Z := t - LocalTZA.

Definition on_time (f : Z → Z) (tv : number) : number :=
  match tv with
  | Num t => Num (f t)
  | NaN => NaN
  end.

Definition getUTCDay : number → number := on_time WeekDay.
Definition getUTCFullYear : number → number := on_time YearFromTime.
Definition getUTCMonth : number → number := on_time MonthFromTime.
Definition getUTCDate : number → number := on_time DateFromTime.
Definition getUTCHours : number → number := on_time HourFromTime.
Definition getUTCMinutes : number → number := on_time MinFromTime.
Definition getUTCSeconds : number → number := on_time SecFromTime.

Definition getDay : number → number := on_time (λ t, WeekDay (LocalTime t)).
Definition getFullYear : number → number :=
  on_time (λ t, YearFromTime (LocalTime t)).
Definition getMonth : number → number :=
  on_time (λ t, MonthFromTime (LocalTime t)).
Definition getDate : number → number :=
  on_time (λ t, DateFromTime (LocalTime t)).

(** [d.setDate(dt)], as the new time value of [d]. *)
Definition setDate (dt tv : number) : number :=
  match tv, dt with
  | Num t, Num d =>
      let lt := LocalTime t in
      Num (UTC (MakeDate (MakeDay (YearFromTime lt) (MonthFromTime lt) d)
                         (TimeWithinDay lt)))
  | _, _ => NaN
  end.

(** [new Date(year, month, date)]: local midnight of the day; a year in
    0..99 stands for 1900 + year. *)
Definition new_Date_ymd (year month date : number) : number :=
  match year, month, date with
  | Num y, Num m, Num dt =>
      let yr := if (0 <=? y) && (y <=? 99) then 1900 + y else y in
      Num (UTC (MakeDate (MakeDay yr m dt) (MakeTime 0 0 0 0)))
  | _, _, _ => NaN
  end.

(** *** Date strings

    [new Date(string)] for the ISO 8601 shapes the functions are documented
    to receive: [YYYY-MM-DD], optionally followed by [THH:mm], [THH:mm:ss] or
    [THH:mm:ss.sss], optionally followed by [Z].  A date alone is UTC; a date
    with a time and no [Z] is local time.  Any other string is taken to an
    Invalid Date. *)

Fixpoint take_digits (n : nat) (acc : Z) (s : string) : option (Z * string) :=
  match n with
  | O => Some (acc, s)
  | S n' =>
      match s with
      | String c s' => d ← digit_of c; take_digits n' (10 * acc + d) s'
      | EmptyString => None
      end
  end.

Definition expect (c : ascii) (s : string) : option string :=
  match s with
  | String c' s' => if Ascii.eqb c c' then Some s' else None
  | EmptyString => None
  end.

(** After the seconds: an optional [.sss]. *)
Definition parse_millis (s : string) : option (Z * string) :=
  match expect "." s with
  | Some s1 => take_digits 3 0 s1
  | None => Some (0, s)
  end.

(** After the minutes: an optional [:ss] and its optional [.sss]. *)
Definition parse_seconds (s : string) : option (Z * Z * string) :=
  match expect ":" s with
  | Some s1 =>
      '(sec, s2) ← take_digits 2 0 s1;
      '(ms, s3) ← parse_millis s2;
      Some (sec, ms, s3)
  | None => Some (0, 0, s)
  end.

(** The time of day after [T], and whether it is UTC. *)
Definition parse_time (s : string) : option (Z * bool) :=
  '(h, s1) ← take_digits 2 0 s;
  s2 ← expect ":" s1;
  '(m, s3) ← take_digits 2 0 s2;
  '(sec, ms, s4) ← parse_seconds s3;
  if ((h <=? 23) || (h =? 24) && (m =? 0) && (sec =? 0) && (ms =? 0))
     && (m <=? 59) && (sec <=? 59) then
    match s4 with
    | EmptyString => Some (MakeTime h m sec ms, false)
    | String "Z" EmptyString => Some (MakeTime h m sec ms, true)
    | _ => None
    end
  else None.

Definition parse_date (s : string) : option Z :=
  '(y, s1) ← take_digits 4 0 s;
  s2 ← expect "-" s1;
  '(m, s3) ← take_digits 2 0 s2;
  s4 ← expect "-" s3;
  '(d, s5) ← take_digits 2 0 s4;
  if (1 <=? m) && (m <=? 12) && (1 <=? d) && (d <=? 31) then
    let day := MakeDay y (m - 1) d in
    match s5 with
    | EmptyString => Some (MakeDate day 0)
    | String "T" s6 =>
        '(time, utc) ← parse_time s6;
        Some (if utc : bool then MakeDate day time
              else UTC (MakeDate day time))
    | _ => None
    end
  else None.

Definition new_Date_string (s : string) : number :=
  match parse_date s with
  | Some t => Num t
  | None => NaN
  end.

(** ** The functions of the repository *)

(** [getNextFriday(date)], lines 91-99. *)
Definition getNextFriday (date : loc) : M loc :=
  newDate <~ new_Date_copy date ;;
  currentDay <~ Date_get getUTCDay newDate ;;
  let addedDays := number_sub (Num 5) currentDay in
  let addedDays :=
    if number_ge currentDay (Num 5) then number_add addedDays (Num 7)
    else addedDays in
  day <~ Date_get getDate newDate ;;
  _ <~ Date_set (setDate (number_add day addedDays)) date ;;
  ret date.

(** [isDateInPeriod(date, period)], lines 157-164. *)
Definition isDateInPeriod (date : string) (period : DatePeriod) : bool :=
  let dateStart := new_Date_string (start period) in
  let dateEnd := new_Date_string (end_ period) in
  let givenDate := new_Date_string date in
  number_ge givenDate dateStart && number_le givenDate dateEnd.

(** The two-digit rendering of minutes and seconds in [formatDate]. *)
Definition two_digits (n : number) : string :=
  if (String.length (ToString n) <? 2)%nat then "0" +:+ ToString n
  else ToString n.

(** [formatDate(date)], lines 179-204. *)
Definition formatDate (date : string) : string :=
  let newDate := new_Date_string date in
  let month := getUTCMonth newDate in
  let day := getUTCDate newDate in
  let year := getUTCFullYear newDate in
  let hours := getUTCHours newDate in
  let minutes := two_digits (getUTCMinutes newDate) in
  let seconds := two_digits (getUTCSeconds newDate) in
  let time :=
    if number_gt hours (Num 12) then
      ToString (number_sub hours (Num 12)) +:+ ":" +:+ minutes +:+ ":"
        +:+ seconds +:+ " PM"
    else if number_eq hours (Num 12) then
      ToString hours +:+ ":" +:+ minutes +:+ ":" +:+ seconds +:+ " PM"
    else
      ToString hours +:+ ":" +:+ minutes +:+ ":" +:+ seconds +:+ " AM" in
  ToString (number_add month (Num 1)) +:+ "/" +:+ ToString day +:+ "/"
    +:+ ToString year +:+ ", " +:+ time.

(** [getWeekNumberByDate(date)], lines 248-259. *)
Definition getWeekNumberByDate (date : number) : number :=
  let newDate := date in
  let startOfTheYear := new_Date_ymd (getFullYear newDate) (Num 0) (Num 1) in
  let daysAfterStartOfTheYear :=
    floor_div (number_sub newDate startOfTheYear) (24 * 60 * 60 * 1000) in
  let startOfTheWeek :=
    if number_eq (getDay startOfTheYear) (Num 0) then Num 7
    else getDay startOfTheYear in
  ceil_div (number_add daysAfterStartOfTheYear startOfTheWeek) 7.

(** The [while] loop of [getNextFridayThe13th], lines 281-292: one unit of
    fuel per iteration; it ends at the first [givenDay] whose date is a
    Friday and a 13th. *)
Fixpoint friday13_loop (fuel : nat) (year month givenDay : number)
  : option number :=
  match fuel with
  | O => None
  | S fuel' =>
      let nextFullDate := new_Date_ymd year month givenDay in
      let nextDay := getDay nextFullDate in
      let nextDate := getDate nextFullDate in
      if number_eq nextDay (Num 5) && number_eq nextDate (Num 13)
      then Some nextFullDate
      else friday13_loop fuel' year month (number_add givenDay (Num 1))
  end.

(** [getNextFridayThe13th(date)], lines 273-294. *)
Definition getNextFridayThe13th (fuel : nat) (date : number) : option number :=
  let newDate := date in
  let givenDay := getDay newDate in
  let year := getFullYear newDate in
  let month := getMonth newDate in
  friday13_loop fuel year month givenDay.

(** [formatScheduleDate], lines 354-359. *)
Definition formatScheduleDate (date : number) : string :=
  let d := slice_last2 ("0" +:+ ToString (getDate date)) in
  let m := slice_last2 ("0" +:+ ToString (number_add (getMonth date) (Num 1))) in
  let y := getFullYear date in
  d +:+ "-" +:+ m +:+ "-" +:+ ToString y.

(** The [for] loop of lines 362-365, for the [n] values of [i] below
    [countWorkDays]: the state is the time value of [currentDate] and the
    schedule. *)
Fixpoint work_run (n : nat) (endDate : number) (st : number * list string)
  : number * list string :=
  match n with
  | O => st
  | S n' =>
      let '(currentDate, schedule) := st in
      if number_le currentDate endDate then
        work_run n' endDate
          (setDate (number_add (getDate currentDate) (Num 1)) currentDate,
           schedule ++ [formatScheduleDate currentDate])
      else st
  end.

(** The [while] loop of lines 361-369, one unit of fuel per iteration. *)
Fixpoint schedule_loop (fuel : nat) (countWorkDays countOffDays : Z)
    (endDate : number) (st : number * list string) : option (list string) :=
  match fuel with
  | O => None
  | S fuel' =>
      if number_le (fst st) endDate then
        let '(currentDate, schedule) :=
          work_run (Z.to_nat countWorkDays) endDate st in
        let currentDate :=
          if number_le currentDate endDate then
            setDate (number_add (getDate currentDate) (Num countOffDays))
                    currentDate
          else currentDate in
        schedule_loop fuel' countWorkDays countOffDays endDate
          (currentDate, schedule)
      else Some (snd st)
  end.

(** The date a ['DD-MM-YYYY'] string stands for, lines 346-349. *)
Definition schedule_date (s : string) : number :=
  let parts := split "-" s in
  let day := parts !! 0%nat in
  let month := parts !! 1%nat in
  let year := parts !! 2%nat in
  new_Date_ymd (ToNumber year) (number_sub (ToNumber month) (Num 1))
    (ToNumber day).

(** [getWorkSchedule(period, countWorkDays, countOffDays)], lines 344-372. *)
Definition getWorkSchedule (fuel : nat) (period : DatePeriod)
    (countWorkDays countOffDays : Z) : option (list string) :=
  let startDate := schedule_date (start period) in
  let endDate := schedule_date (end_ period) in
  let schedule := [] in
  let currentDate := startDate in
  schedule_loop fuel countWorkDays countOffDays endDate (currentDate, schedule).

End Host.

(** ** The other functions of the repository *)

Definition number_lt (a b : number) : bool := number_gt b a.

(** [a % b]: the remainder has the sign of [a]; [a % 0] is [NaN]. *)
Definition number_rem (a b : number) : number :=
  match a, b with
  | Num x, Num y => if y =? 0 then NaN else Num (Z.rem x y)
  | _, _ => NaN
  end.

(** The value of [getCountDaysOnPeriod].  When the two instants are not a
    whole number of days apart the quotient is a double that is not an
    integer; it is not computed here, and the result keeps the difference in
    milliseconds it is computed from. *)
Inductive day_count : Type :=
  | NoCount
  | WholeDays (n : Z)
  | PartOfDay (difference : Z).

(** The object literal [weekDays] of lines 67-75, read at [day]: a key that
    is not there gives [undefined]. *)
Definition weekDays (day : number) : option string :=
  match day with
  | Num 0 => Some "Sunday"
  | Num 1 => Some "Monday"
  | Num 2 => Some "Tuesday"
  | Num 3 => Some "Wednesday"
  | Num 4 => Some "Thursday"
  | Num 5 => Some "Friday"
  | Num 6 => Some "Saturday"
  | _ => None
  end.

Section OtherFunctions.

Variable LocalTZA : Z.

(** The host's reading of a date string, for the functions that are
    documented with strings outside ISO 8601 (['01 Jan 1970 00:00:00 UTC']):
    any function from strings to time values. *)
Variable Date_parse : string → number.

Definition getHours : number → number :=
  on_time (λ t, HourFromTime (LocalTime LocalTZA t)).
Definition getMinutes : number → number :=
  on_time (λ t, MinFromTime (LocalTime LocalTZA t)).
Definition getSeconds : number → number :=
  on_time (λ t, SecFromTime (LocalTime LocalTZA t)).

(** [getTime(date)], lines 36-50. *)
Definition getTime (date : number) : string :=
  let hours :=
    if (String.length (ToString (getHours date)) <? 2)%nat
    then "0" +:+ ToString (getHours date)
    else ToString (getHours date) in
  let minutes :=
    if (String.length (ToString (getMinutes date)) <? 2)%nat
    then "0" +:+ ToString (getMinutes date)
    else ToString (getMinutes date) in
  let seconds :=
    if (String.length (ToString (getSeconds date)) <? 2)%nat
    then "0" +:+ ToString (getSeconds date)
    else ToString (getSeconds date) in
  hours +:+ ":" +:+ minutes +:+ ":" +:+ seconds.

(** [getDayName(date)], lines 64-77. *)
Definition getDayName (date : string) : option string :=
  let newDate := Date_parse date in
  let day := getUTCDay newDate in
  weekDays day.

(** [getCountDaysInMonth(month, year)], lines 114-117. *)
Definition getCountDaysInMonth (month year : number) : number :=
  let newDate := new_Date_ymd LocalTZA year month (Num 0) in
  getDate LocalTZA newDate.

(** [getCountDaysOnPeriod(dateStart, dateEnd)], lines 131-138. *)
Definition getCountDaysOnPeriod (dateStart dateEnd : string) : day_count :=
  let newDateStart := new_Date_string LocalTZA dateStart in
  let newDateEnd := new_Date_string LocalTZA dateEnd in
  let difference := number_sub newDateEnd newDateStart in
  match difference with
  | Num ms =>
      if ms mod (1000 * 60 * 60 * 24) =? 0
      then WholeDays (ms / (1000 * 60 * 60 * 24) + 1)
      else PartOfDay ms
  | NaN => NoCount
  end.



(** [getQuarter(date)], lines 308-323. *)
Definition getQuarter (date : number) : number :=
  let newDate := date in
  let month := getMonth LocalTZA newDate in
  if number_lt month (Num 3) then Num 1
  else if number_lt month (Num 6) then Num 2
  else if number_lt month (Num 9) then Num 3
  else Num 4.

(** [isLeapYear(date)], lines 388-393. *)
Definition isLeapYear (date : number) : bool :=
  let givenYear := getFullYear LocalTZA date in
  (number_eq (number_rem givenYear (Num 4)) (Num 0)
   && negb (number_eq (number_rem givenYear (Num 100)) (Num 0)))
  || number_eq (number_rem givenYear (Num 400)) (Num 0).

End OtherFunctions.

(** ** Calendar notions used in the statements *)

(** The number of days of month [m] (1 for January) of year [y]. *)
Definition DaysInMonth (y m : Z) : Z :=
  match m with
  | 2 => if DaysInYear y =? 366 then 29 else 28
  | 4 | 6 | 9 | 11 => 30
  | _ => 31
  end.

(** The year that [new Date(year, month, date)] builds a date in: a year
    in 0..99 stands for 1900 + year. *)
Definition constructor_year (y : Z) : Z :=
  if (0 <=? y) && (y <=? 99) then 1900 + y else y.

(** Day number, counted from January 1, of the first day after month [mn]
    (0..11) of a year. *)
Definition DayOfMonthNext (leap mn : Z) : Z :=
  if mn =? 11 then 365 + leap else DayOfMonthStart leap (mn + 1).


(** Day number [D] (days since 1970-01-01) is a Friday and a 13th. *)
Definition is_friday13 (D : Z) : bool :=
  (WeekDay (D * msPerDay) =? 5) && (DateFromTime (D * msPerDay) =? 13).

(** Every day from [lo] to [hi] has a Friday the 13th of the list [l] on it
    or at most [gap] days after it; [l] is read in increasing order. *)
Fixpoint covered (gap lo : Z) (l : list Z) (hi : Z) : bool :=
  match l with
  | [] => hi <? lo
  | f :: l' =>
      if is_friday13 f then (f <=? lo + gap) && covered gap (f + 1) l' hi
      else covered gap lo l' hi
  end.

(** The 13th of each of the 4816 months from January 1970 on: a 400-year
    cycle and 16 months more. *)
Definition thirteenths : list Z :=
  (λ i, MakeDay 1970 i 13) <$> seqZ 0 4816.

(** ** A host with time zone rules and a bounded range of dates

    The [Date] methods of section [Host] take local time to be UTC shifted
    by one constant and time values to be unbounded.  In ECMA-262 the
    offset [LocalTZA(t, isUTC)] depends on the instant, and a time value
    beyond [maxTime] is an Invalid Date ([TimeClip]).  [getNextFriday] and
    [getWeekNumberByDate], which combine a reading in UTC with a reading in
    local time, are embedded over such a host as well. *)

(** The last time value of a [Date], in milliseconds: 100 000 000 days from
    the epoch, to either side. *)
Definition maxTime : Z := 8640000000000000.

Definition TimeClip (t : Z) : number :=
  if Z.abs t <=? maxTime then Num t else NaN.

Module Zoned.

Section Host.

(** [LocalTZA t isUTC]: the offset of local time from UTC, in milliseconds,
    at the instant [t], which is a UTC time value when [isUTC] is true and a
    local time value when it is false. *)
Variable LocalTZA : Z → bool → Z.

Definition LocalTime (t : Z) : Z := t + LocalTZA t true.
Definition UTC (t : Z) : Z := t - LocalTZA t false.

Definition getDay : number → number := on_time (λ t, WeekDay (LocalTime t)).
Definition getFullYear : number → number :=
  on_time (λ t, YearFromTime (LocalTime t)).
Definition getMonth : number → number :=
  on_time (λ t, MonthFromTime (LocalTime t)).
Definition getDate : number → number :=
  on_time (λ t, DateFromTime (LocalTime t)).

(** [d.setDate(dt)], as the new time value of [d]. *)
Definition setDate (dt tv : number) : number :=
  match tv, dt with
  | Num t, Num d =>
      let lt := LocalTime t in
      TimeClip (UTC (MakeDate (MakeDay (YearFromTime lt) (MonthFromTime lt) d)
                              (TimeWithinDay lt)))
  | _, _ => NaN
  end.

(** [new Date(year, month, date)]: local midnight of the day; a year in
    0..99 stands for 1900 + year. *)
Definition new_Date_ymd (year month date : number) : number :=
  match year, month, date with
  | Num y, Num m, Num dt =>
      let yr := if (0 <=? y) && (y <=? 99) then 1900 + y else y in
      TimeClip (UTC (MakeDate (MakeDay yr m dt) (MakeTime 0 0 0 0)))
  | _, _, _ => NaN
  end.

(** [getNextFriday(date)], lines 91-99. *)
Definition getNextFriday (date : loc) : M loc :=
  newDate <~ new_Date_copy date ;;
  currentDay <~ Date_get getUTCDay newDate ;;
  let addedDays := number_sub (Num 5) currentDay in
  let addedDays :=
    if number_ge currentDay (Num 5) then number_add addedDays (Num 7)
    else addedDays in
  day <~ Date_get getDate newDate ;;
  _ <~ Date_set (setDate (number_add day addedDays)) date ;;
  ret date.

(** [getWeekNumberByDate(date)], lines 248-259. *)
Definition getWeekNumberByDate (date : number) : number :=
  let newDate := date in
  let startOfTheYear := new_Date_ymd (getFullYear newDate) (Num 0) (Num 1) in
  let daysAfterStartOfTheYear :=
    floor_div (number_sub newDate startOfTheYear) (24 * 60 * 60 * 1000) in
  let startOfTheWeek :=
    if number_eq (getDay startOfTheYear) (Num 0) then Num 7
    else getDay startOfTheYear in
  ceil_div (number_add daysAfterStartOfTheYear startOfTheWeek) 7.

(** The offset of the host is [c] at every instant from [lo] to [hi], read
    as a UTC time value or as a local one. *)
Definition steady (c lo hi : Z) : Prop :=
  ∀ (u : Z) (isUTC : bool), lo <= u <= hi → LocalTZA u isUTC = c.

End Host.

End Zoned.

(** A host five hours behind UTC whose clocks are one hour forward from
    2024-03-10T07:00:00Z to 2024-11-03T06:00:00Z: the rules of New York in
    2024.  A local time that the clocks skip (02:00 to 03:00 on March 10) or
    show twice (01:00 to 02:00 on November 3) is read with the offset
    before the change. *)
Definition new_york_2024 (t : Z) (isUTC : bool) : Z :=
  if isUTC then
    if (1710054000000 <=? t) && (t <? 1730613600000)
    then -4 * msPerHour else -5 * msPerHour
  else
    if (1710039600000 <=? t) && (t <? 1730599200000)
    then -4 * msPerHour else -5 * msPerHour.

(** ** The specification's own words

    Definitions that follow the text of the specification, to be compared
    with the functions above. *)

(** "An offset so that Monday=1..Sunday=7 for Jan 1's weekday", for the year
    of the local time [lt]. *)
Definition January_1_offset (lt : Z) : Z :=
  let weekDay := WeekDay (TimeFromYear (YearFromTime lt)) in
  if weekDay =? 0 then 7 else weekDay.

(** "Days elapsed since Jan 1 (local), add an offset [...], divide by 7,
    round up", for the local time [lt]. *)
Definition week_of_year (lt : Z) : Z :=
  (DayWithinYear lt + January_1_offset lt + 6) / 7.

(** "Emit [countWorkDays] consecutive dates, then skip forward [countOffDays]
    calendar days", over the days [0 .. n - 1] counted from the start: the
    days whose position in the cycle of [countWorkDays + countOffDays] days
    is a working one. *)
Definition work_days (countWorkDays countOffDays n : Z) : list Z :=
  filter (λ j, j mod (countWorkDays + countOffDays) < countWorkDays)
         (seqZ 0 n).

(** "Every date string in the array denotes a calendar day": the year, the
    month (from 1) and the day that a ['DD-MM-YYYY'] string names, read as
    written, the year with all its digits, when they are a date of the
    calendar. *)
Definition written_date (s : string) : option (Z * Z * Z) :=
  match split "-" s with
  | [dd; mm; yyyy] =>
      d ← digits_value 0 dd;
      m ← digits_value 0 mm;
      y ← digits_value 0 yyyy;
      if (1 <=? m) && (m <=? 12) && (1 <=? d) && (d <=? DaysInMonth y m)
      then Some (y, m, d) else None
  | _ => None
  end.

(** The number of a day of the calendar, in days since 1970-01-01. *)
Definition day_number (date : Z * Z * Z) : Z :=
  let '(y, m, d) := date in MakeDay y (m - 1) d.


(** * Properties *)

(** ** Day and year arithmetic *)

Ltac bool_to_prop :=
  repeat match goal with
  | H : (_ <? _) = true |- _ => apply Z.ltb_lt in H
  | H : (_ <? _) = false |- _ => apply Z.ltb_ge in H
  | H : (_ <=? _) = true |- _ => apply Z.leb_le in H
  | H : (_ <=? _) = false |- _ => apply Z.leb_gt in H
  | H : (_ =? _) = true |- _ => apply Z.eqb_eq in H
  | H : (_ =? _) = false |- _ => apply Z.eqb_neq in H
  | H : negb _ = true |- _ => apply negb_true_iff in H
  | H : negb _ = false |- _ => apply negb_false_iff in H
  | H : _ && _ = true |- _ => apply andb_true_iff in H; destruct H
  end.

Ltac div_lia := Z.div_mod_to_equations; lia.

(** [YearFromDay d] is the year that contains day [d]. *)
Lemma YearFromDay_spec (d : Z) :
  DayFromYear (YearFromDay d) <= d < DayFromYear (YearFromDay d + 1).
Proof.
  unfold YearFromDay; cbv zeta.
  repeat case_match; bool_to_prop; unfold DayFromYear in *; div_lia.
Qed.

Lemma DayFromYear_succ (y : Z) :
  DayFromYear (y + 1) = DayFromYear y + DaysInYear y.
Proof.
  unfold DayFromYear, DaysInYear.
  repeat case_match; bool_to_prop; div_lia.
Qed.

Lemma DayFromYear_mono (y y' : Z) : y <= y' → DayFromYear y <= DayFromYear y'.
Proof. unfold DayFromYear; intros; div_lia. Qed.

(** [YearFromTime t] is the largest year that starts at or before [t]. *)
Lemma YearFromTime_largest (t y : Z) :
  TimeFromYear y <= t ↔ y <= YearFromTime t.
Proof.
  unfold TimeFromYear, YearFromTime.
  pose proof (YearFromDay_spec (Day t)) as [Hlo Hhi].
  assert (Hday : ∀ n, msPerDay * n <= t ↔ n <= Day t)
    by (intros n; unfold Day, msPerDay; div_lia).
  rewrite Hday. split; intros H.
  - destruct (Z_le_gt_dec y (YearFromDay (Day t))) as [|Hgt]; [done|].
    pose proof (DayFromYear_mono (YearFromDay (Day t) + 1) y). lia.
  - pose proof (DayFromYear_mono y (YearFromDay (Day t))). lia.
Qed.

Lemma DaysInYear_cases (y : Z) : DaysInYear y = 365 ∨ DaysInYear y = 366.
Proof. unfold DaysInYear; repeat case_match; auto. Qed.

Lemma DayWithinYear_range (t : Z) :
  0 <= DayWithinYear t < DaysInYear (YearFromTime t).
Proof.
  unfold DayWithinYear, YearFromTime.
  pose proof (YearFromDay_spec (Day t)) as H.
  rewrite DayFromYear_succ in H. lia.
Qed.

Lemma InLeapYear_cases (t : Z) : InLeapYear t = 0 ∨ InLeapYear t = 1.
Proof. unfold InLeapYear; case_match; auto. Qed.

Lemma MonthFromTime_range (t : Z) : 0 <= MonthFromTime t <= 11.
Proof. unfold MonthFromTime; cbv zeta; repeat case_match; lia. Qed.

Lemma DateFromTime_DayOfMonthStart (t : Z) :
  DayOfMonthStart (InLeapYear t) (MonthFromTime t) + DateFromTime t - 1
  = DayWithinYear t.
Proof.
  unfold DateFromTime; cbv zeta.
  pose proof (MonthFromTime_range t) as Hm.
  destruct (MonthFromTime t) as [|p|p]; [simpl; lia| |lia].
  do 11 (try destruct p as [p|p|]; try lia); simpl; lia.
Qed.

(** The date of a day lies inside its month. *)
Lemma DateFromTime_range (t : Z) : 1 <= DateFromTime t <= 31.
Proof.
  pose proof (DayWithinYear_range t) as Hd.
  assert (Hl : DaysInYear (YearFromTime t) = 365 + InLeapYear t)
    by (unfold InLeapYear; destruct (DaysInYear_cases (YearFromTime t)) as [->| ->];
        reflexivity).
  destruct (InLeapYear_cases t) as [Hleap|Hleap];
    unfold DateFromTime, MonthFromTime; cbv zeta; rewrite Hleap in *;
    repeat case_match; bool_to_prop; lia.
Qed.

(** [MakeDay] at the year and month of [t] counts days from the first of
    that month: at the date of [t] moved by [k], it is the day of [t] moved
    by [k] days. *)
Lemma MakeDay_of_time (t k : Z) :
  MakeDay (YearFromTime t) (MonthFromTime t) (DateFromTime t + k) = Day t + k.
Proof.
  unfold MakeDay; cbv zeta.
  pose proof (MonthFromTime_range t) as Hm.
  rewrite (Z.div_small (MonthFromTime t) 12), (Z.mod_small (MonthFromTime t) 12),
    Z.add_0_r by lia.
  pose proof (DateFromTime_DayOfMonthStart t) as H.
  unfold InLeapYear in H. unfold DayWithinYear in *. lia.
Qed.

Lemma Day_add_days (t k : Z) : Day (t + k * msPerDay) = Day t + k.
Proof. unfold Day. rewrite Z.div_add; [done|discriminate]. Qed.

Lemma TimeWithinDay_add_days (t k : Z) :
  TimeWithinDay (t + k * msPerDay) = TimeWithinDay t.
Proof. unfold TimeWithinDay. rewrite Z.mod_add; [done|discriminate]. Qed.

Lemma Day_TimeWithinDay (t : Z) : MakeDate (Day t) (TimeWithinDay t) = t.
Proof. unfold MakeDate, Day, TimeWithinDay, msPerDay. div_lia. Qed.

Lemma WeekDay_add_days (t k : Z) :
  WeekDay (t + k * msPerDay) = (WeekDay t + k) mod 7.
Proof. unfold WeekDay. rewrite Day_add_days. div_lia. Qed.

Lemma WeekDay_range (t : Z) : 0 <= WeekDay t <= 6.
Proof. unfold WeekDay. div_lia. Qed.

(** The first of month [mn] of year [y], as [MakeDay] places it, is a day
    of year [y], of month [mn], with date 1. *)
Lemma MakeDay_first_of_month (y mn : Z) :
  0 <= mn <= 11 →
  let t := MakeDate (MakeDay y mn 1) 0 in
  YearFromTime t = y ∧ MonthFromTime t = mn ∧ DateFromTime t = 1.
Proof.
  intros Hmn t.
  assert (Hday : Day t = MakeDay y mn 1)
    by (unfold t, MakeDate, Day, msPerDay; div_lia).
  assert (Hm : MakeDay y mn 1
               = DayFromYear y
                 + DayOfMonthStart (if DaysInYear y =? 365 then 0 else 1) mn).
  { unfold MakeDay; cbv zeta.
    rewrite (Z.div_small mn 12), (Z.mod_small mn 12), Z.add_0_r by lia. lia. }
  assert (Hoff : 0 <= DayOfMonthStart (if DaysInYear y =? 365 then 0 else 1) mn
                 < DaysInYear y).
  { destruct (DaysInYear_cases y) as [-> | ->]; simpl (_ =? _);
      cbv iota; (destruct mn as [|p|p]; [simpl; lia| |lia]);
      do 11 (try destruct p as [p|p|]; try lia); simpl; lia. }
  assert (Hy : YearFromTime t = y).
  { apply Z.le_antisymm.
    - destruct (Z_le_gt_dec (YearFromTime t) y) as [|Hgt]; [done|].
      assert (H1 : y + 1 <= YearFromTime t) by lia.
      apply YearFromTime_largest in H1. unfold TimeFromYear in H1.
      rewrite DayFromYear_succ in H1.
      unfold t, MakeDate, msPerDay in *. lia.
    - apply YearFromTime_largest. unfold TimeFromYear, t, MakeDate, msPerDay. lia. }
  assert (Hd : DayWithinYear t
               = DayOfMonthStart (if DaysInYear y =? 365 then 0 else 1) mn)
    by (unfold DayWithinYear; rewrite Hy; lia).
  assert (Hmon : MonthFromTime t = mn).
  { unfold MonthFromTime; cbv zeta. rewrite Hd. unfold InLeapYear. rewrite Hy.
    destruct (DaysInYear_cases y) as [-> | ->]; simpl (_ =? _); cbv iota;
      (destruct mn as [|p|p]; [reflexivity| |lia]);
      do 11 (try destruct p as [p|p|]; try lia); reflexivity. }
  split; [done|]. split; [done|].
  pose proof (DateFromTime_DayOfMonthStart t) as H.
  rewrite Hmon, Hd in H. unfold InLeapYear in H. rewrite Hy in H. lia.
Qed.

(** ** Local time and the [Date] methods *)

Section HostFacts.

Variable tz : Z.

Lemma LocalTime_UTC (x : Z) : LocalTime tz (UTC tz x) = x.
Proof. unfold LocalTime, UTC. lia. Qed.

Lemma UTC_LocalTime (t : Z) : UTC tz (LocalTime tz t) = t.
Proof. unfold LocalTime, UTC. lia. Qed.

(** Setting the date of a [Date] to its own date plus [k] moves it by [k]
    whole days. *)
Lemma setDate_getDate_add (t k : Z) :
  setDate tz (number_add (getDate tz (Num t)) (Num k)) (Num t)
  = Num (t + k * msPerDay).
Proof.
  unfold setDate, getDate, on_time, number_add. f_equal.
  rewrite MakeDay_of_time.
  pose proof (Day_TimeWithinDay (LocalTime tz t)) as H.
  unfold MakeDate, UTC, LocalTime in *. lia.
Qed.

(** A date built from local components, read back in local time. *)
Lemma new_Date_ymd_local (y m d : Z) :
  ∃ x, new_Date_ymd tz (Num y) (Num m) (Num d) = Num (x - tz)
       ∧ new_Date_ymd 0 (Num y) (Num m) (Num d) = Num x.
Proof.
  unfold new_Date_ymd, UTC. eexists. split; [reflexivity|].
  f_equal. lia.
Qed.

End HostFacts.

(** ** [getNextFriday] *)

(** The number of days [getNextFriday] adds on a day whose UTC week day is
    [currentDay]. *)
Lemma getNextFriday_run (tz : Z) (h : gmap loc number) (date : loc) (t : Z) :
  h !! date = Some (Num t) →
  let currentDay := WeekDay t in
  let addedDays := if 5 <=? currentDay then 5 - currentDay + 7
                   else 5 - currentDay in
  getNextFriday tz date h
  = Some (date, <[date := Num (t + addedDays * msPerDay)]>
                  (<[fresh (dom h) := Num t]> h)).
Proof.
  intros Hdate currentDay addedDays.
  assert (Hfresh : fresh (dom h) ≠ date).
  { intros Heq. apply (is_fresh (dom h)). rewrite Heq.
    apply elem_of_dom. eauto. }
  unfold getNextFriday, bind, new_Date_copy, Date_get, Date_set, ret.
  rewrite Hdate; simpl. rewrite !lookup_insert_eq; simpl.
  rewrite lookup_insert_ne, Hdate by done.
  do 3 f_equal.
  unfold getUTCDay, on_time, number_ge, number_le, number_sub.
  fold currentDay. unfold addedDays.
  destruct (5 <=? currentDay); exact (setDate_getDate_add tz t _).
Qed.

(** C4, on a host with daylight saving time.  [getNextFriday] reads the
    week day in UTC and moves the date with [getDate] and [setDate], which
    work in local time and keep the local time of day.  On the host
    [new_york_2024] the date 2024-03-09T00:00:00Z, a Saturday, is Friday
    19:00 in local time; six days on the clocks are one hour forward, and
    [setDate] leaves 2024-03-14T23:00:00Z: six days less one hour after the
    input, and a Thursday in UTC and in local time, where the next Friday is
    2024-03-15T00:00:00Z. *)
Theorem getNextFriday_daylight_saving :
  let t := 1709942400000 in
  let h : gmap loc number := {[1%positive := Num t]} in
  let h' : gmap loc number :=
    <[1%positive := Num 1710457200000]> (<[2%positive := Num t]> h) in
  Zoned.getNextFriday new_york_2024 1%positive h = Some (1%positive, h')
    ∧ h' !! 1%positive = Some (Num 1710457200000)
    ∧ WeekDay t = 6
    ∧ 1710457200000 = t + 6 * msPerDay - msPerHour
    ∧ WeekDay 1710457200000 = 4
    ∧ Zoned.getDay new_york_2024 (Num 1710457200000) = Num 4
    ∧ WeekDay (t + 6 * msPerDay) = 5.
Proof.
  cbv zeta. split; [vm_compute; reflexivity|].
  repeat split; reflexivity.
Qed.



(** ** [isDateInPeriod] *)

(** C6. [isDateInPeriod] is true exactly when the three strings are valid
    dates and the instant of [date] lies between the instants of [start]
    and [end], both included; '2024-02-02' is in the period from
    '2024-02-02' to '2024-03-02', and '2024-02-01' is not. *)
Theorem isDateInPeriod_inclusive (tz : Z) :
  (∀ (date : string) (period : DatePeriod),
     isDateInPeriod tz date period = true
     ↔ ∃ s d e : Z,
         new_Date_string tz (start period) = Num s
         ∧ new_Date_string tz date = Num d
         ∧ new_Date_string tz (end_ period) = Num e
         ∧ s <= d <= e)
  ∧ isDateInPeriod tz "2024-02-02"
      {| start := "2024-02-02"; end_ := "2024-03-02" |} = true
  ∧ isDateInPeriod tz "2024-02-01"
      {| start := "2024-02-02"; end_ := "2024-03-02" |} = false.
Proof.
  split; [|split; reflexivity].
  intros date period. unfold isDateInPeriod, number_ge, number_le.
  destruct (new_Date_string tz (start period)) as [|s],
    (new_Date_string tz date) as [|d],
    (new_Date_string tz (end_ period)) as [|e];
    rewrite ?andb_false_r;
    try (split; [discriminate | intros (? & ? & ? & ? & ? & ? & _); discriminate]).
  rewrite andb_true_iff, !Z.leb_le. split.
  - intros [? ?]. exists s, d, e. auto.
  - intros (s' & d' & e' & [= <-] & [= <-] & [= <-] & ?). lia.
Qed.

(** ** [formatDate] *)

Lemma string_app_assoc (a b c : string) : (a +:+ b) +:+ c = a +:+ (b +:+ c).
Proof.
  induction a as [|x a IH]; [reflexivity|].
  change (String x ((a +:+ b) +:+ c) = String x (a +:+ (b +:+ c))).
  by rewrite IH.
Qed.




Lemma two_digits_check :
  forallb (λ n, (String.length (two_digits (Num n)) =? 2)%nat) (seqZ 0 60)
  = true.
Proof. vm_compute. reflexivity. Qed.

(** Minutes and seconds are rendered with exactly two characters. *)
Lemma two_digits_length (n : Z) :
  0 <= n < 60 → String.length (two_digits (Num n)) = 2%nat.
Proof.
  intros Hn. pose proof two_digits_check as H.
  rewrite forallb_forall in H.
  apply Nat.eqb_eq, H, list_elem_of_In, elem_of_seqZ. lia.
Qed.

Lemma formatDate_valid (tz : Z) (date : string) (t : Z) :
  new_Date_string tz date = Num t →
  let h := HourFromTime t in
  let mm := two_digits (Num (MinFromTime t)) in
  let ss := two_digits (Num (SecFromTime t)) in
  formatDate tz date
  = pretty (MonthFromTime t + 1) +:+ "/" +:+ pretty (DateFromTime t) +:+ "/"
      +:+ pretty (YearFromTime t) +:+ ", "
      +:+ (if 12 <? h then
             pretty (h - 12) +:+ ":" +:+ mm +:+ ":" +:+ ss +:+ " PM"
           else if h =? 12 then
             pretty h +:+ ":" +:+ mm +:+ ":" +:+ ss +:+ " PM"
           else pretty h +:+ ":" +:+ mm +:+ ":" +:+ ss +:+ " AM").
Proof. intros H. unfold formatDate. rewrite H. reflexivity. Qed.



(** C10. Noon is a case of its own: a valid date string whose UTC hour is
    12 is rendered with hour [12] and PM (nothing is subtracted), and UTC
    hours 13 to 23 are rendered as the hour minus 12, with PM. *)
Theorem formatDate_noon (tz : Z) (date : string) (t : Z) :
  new_Date_string tz date = Num t →
  let h := HourFromTime t in
  let day := pretty (MonthFromTime t + 1) +:+ "/" +:+ pretty (DateFromTime t)
               +:+ "/" +:+ pretty (YearFromTime t) +:+ ", " in
  let mm := two_digits (Num (MinFromTime t)) in
  let ss := two_digits (Num (SecFromTime t)) in
  (h = 12 →
     formatDate tz date = day +:+ "12:" +:+ mm +:+ ":" +:+ ss +:+ " PM")
  ∧ (13 <= h <= 23 →
     formatDate tz date
     = day +:+ pretty (h - 12) +:+ ":" +:+ mm +:+ ":" +:+ ss +:+ " PM")
  ∧ (0 <= h <= 11 →
     formatDate tz date
     = day +:+ pretty h +:+ ":" +:+ mm +:+ ":" +:+ ss +:+ " AM").
Proof.
  intros Hdate h day mm ss.
  pose proof (formatDate_valid tz date t Hdate) as Heq. cbv zeta in Heq.
  fold h mm ss in Heq.
  repeat split; intros Hh; rewrite Heq; unfold day; rewrite !string_app_assoc;
    repeat case_match; bool_to_prop; try lia; try rewrite Hh; reflexivity.
Qed.

Lemma formatDate_noon_witness :
  new_Date_string 0 "2010-12-15T12:59:07Z" = Num 1292417947000
  ∧ formatDate 0 "2010-12-15T12:59:07Z" = "12/15/2010, 12:59:07 PM".
Proof.
  split; [reflexivity|].
  destruct (formatDate_noon 0 "2010-12-15T12:59:07Z" 1292417947000 eq_refl)
    as [Hnoon _].
  rewrite Hnoon; reflexivity.
Defined.

(** ** [getWeekNumberByDate] *)

(** The function only looks at local time. *)
Lemma getWeekNumberByDate_local (tz x : Z) :
  getWeekNumberByDate tz (Num (UTC tz x)) = getWeekNumberByDate 0 (Num x).
Proof.
  unfold getWeekNumberByDate, getFullYear, getDay, on_time, new_Date_ymd.
  rewrite LocalTime_UTC.
  replace (LocalTime 0 x) with x by (unfold LocalTime; lia).
  set (yr := if (0 <=? YearFromTime x) && (YearFromTime x <=? 99)
             then 1900 + YearFromTime x else YearFromTime x).
  rewrite LocalTime_UTC.
  replace (LocalTime 0 (UTC 0 (MakeDate (MakeDay yr 0 1) (MakeTime 0 0 0 0))))
    with (MakeDate (MakeDay yr 0 1) (MakeTime 0 0 0 0))
    by (unfold LocalTime, UTC; lia).
  unfold number_sub, UTC.
  replace (x - tz - (MakeDate (MakeDay yr 0 1) (MakeTime 0 0 0 0) - tz))
    with (x - (MakeDate (MakeDay yr 0 1) (MakeTime 0 0 0 0) - 0)) by lia.
  reflexivity.
Qed.

(** Outside the years 0..99, [getWeekNumberByDate] is the week number of
    the specification: days elapsed since January 1 of the local year, plus
    the Monday=1..Sunday=7 offset of that January 1, divided by 7 and
    rounded up. *)
Lemma getWeekNumberByDate_formula (tz t : Z) :
  let lt := LocalTime tz t in
  ¬ (0 <= YearFromTime lt <= 99) →
  getWeekNumberByDate tz (Num t) = Num (week_of_year lt).
Proof.
  intros lt Hyear.
  replace t with (UTC tz lt) by apply UTC_LocalTime.
  rewrite getWeekNumberByDate_local.
  unfold getWeekNumberByDate, getFullYear, getDay, on_time, new_Date_ymd.
  replace (LocalTime 0 lt) with lt by (unfold LocalTime; lia).
  set (y := YearFromTime lt) in *.
  assert (Hyr : (0 <=? y) && (y <=? 99) = false).
  { apply andb_false_iff. rewrite Z.leb_gt, Z.leb_gt. lia. }
  rewrite Hyr.
  assert (Hstart : UTC 0 (MakeDate (MakeDay y 0 1) (MakeTime 0 0 0 0))
                   = TimeFromYear y).
  { unfold UTC, MakeDate, MakeDay, MakeTime, TimeFromYear; cbv zeta.
    change (0 / 12) with 0. change (0 mod 12) with 0.
    replace (y + 0) with y by lia.
    unfold DayOfMonthStart, msPerHour, msPerMinute, msPerSecond. lia. }
  rewrite Hstart.
  replace (LocalTime 0 (TimeFromYear y)) with (TimeFromYear y)
    by (unfold LocalTime; lia).
  unfold week_of_year, January_1_offset. fold y.
  assert (Hdays : (lt - TimeFromYear y) / (24 * 60 * 60 * 1000)
                  = DayWithinYear lt).
  { unfold DayWithinYear, Day, TimeFromYear. fold y.
    change (24 * 60 * 60 * 1000) with msPerDay. unfold msPerDay. div_lia. }
  unfold number_sub, floor_div. rewrite Hdays.
  unfold number_eq.
  destruct (WeekDay (TimeFromYear y) =? 0); unfold number_add, ceil_div;
    f_equal; div_lia.
Qed.

(** The examples of the documentation, in every time zone. *)
Lemma getWeekNumberByDate_examples (tz : Z) :
  getWeekNumberByDate tz (new_Date_ymd tz (Num 2024) (Num 0) (Num 3)) = Num 1
  ∧ getWeekNumberByDate tz (new_Date_ymd tz (Num 2024) (Num 0) (Num 31)) = Num 5
  ∧ getWeekNumberByDate tz (new_Date_ymd tz (Num 2024) (Num 1) (Num 23)) = Num 8.
Proof.
  unfold new_Date_ymd. rewrite !getWeekNumberByDate_local.
  repeat split; vm_compute; reflexivity.
Qed.

(** C7, at a date in the year 50.  January 3 of the year 50 is a Monday in
    the week after the one of January 1 (a Saturday): the week number of the
    specification is 2.  [getWeekNumberByDate] reads the year as 50 and
    builds [new Date(50, 0, 1)], which is January 1 of 1950, so it counts
    the days back from 1950 and returns -99135. *)
Theorem getWeekNumberByDate_year_50 (tz : Z) :
  let date := Num (UTC tz (-60589123200000)) in
  getFullYear tz date = Num 50
  ∧ getMonth tz date = Num 0
  ∧ getDate tz date = Num 3
  ∧ new_Date_ymd tz (getFullYear tz date) (Num 0) (Num 1)
    = new_Date_ymd tz (Num 1950) (Num 0) (Num 1)
  ∧ week_of_year (LocalTime tz (UTC tz (-60589123200000))) = 2
  ∧ getWeekNumberByDate tz date = Num (-99135).
Proof.
  cbv zeta. rewrite getWeekNumberByDate_local.
  unfold getFullYear, getMonth, getDate, on_time. rewrite !LocalTime_UTC.
  repeat split; vm_compute; reflexivity.
Qed.

(** ** [getNextFridayThe13th] *)

(** The scan only looks at local time. *)
Lemma friday13_loop_local (tz : Z) (fuel : nat) (y m d : Z) :
  friday13_loop tz fuel (Num y) (Num m) (Num d)
  = (λ r, number_sub r (Num tz)) <$> friday13_loop 0 fuel (Num y) (Num m) (Num d).
Proof.
  revert d. induction fuel as [|fuel IH]; intros d; [reflexivity|].
  cbn [friday13_loop].
  destruct (new_Date_ymd_local tz y m d) as (x & -> & ->).
  unfold getDay, getDate, on_time.
  replace (LocalTime tz (x - tz)) with x by (unfold LocalTime; lia).
  replace (LocalTime 0 x) with x by (unfold LocalTime; lia).
  destruct (number_eq (Num (WeekDay x)) (Num 5)
            && number_eq (Num (DateFromTime x)) (Num 13)).
  - reflexivity.
  - apply IH.
Qed.

(** Whatever the scan returns is a Friday and a 13th, in local time. *)
Lemma friday13_loop_sound (tz : Z) (fuel : nat) (year month givenDay r : number) :
  friday13_loop tz fuel year month givenDay = Some r →
  getDay tz r = Num 5 ∧ getDate tz r = Num 13.
Proof.
  revert givenDay. induction fuel as [|fuel IH]; intros givenDay; [done|].
  cbn [friday13_loop].
  destruct (number_eq (getDay tz (new_Date_ymd tz year month givenDay)) (Num 5)
            && number_eq (getDate tz (new_Date_ymd tz year month givenDay))
                 (Num 13)) eqn:Hfound.
  - intros [= <-]. apply andb_true_iff in Hfound as [H5 H13].
    unfold number_eq in *.
    destruct (getDay tz _) as [|a]; [done|].
    destruct (getDate tz _) as [|b]; [done|].
    bool_to_prop. by subst.
  - apply IH.
Qed.

(** A result of the scan does not depend on the fuel left over. *)
Lemma friday13_loop_more_fuel (tz : Z) (fuel fuel' : nat)
    (year month givenDay r : number) :
  (fuel <= fuel')%nat →
  friday13_loop tz fuel year month givenDay = Some r →
  friday13_loop tz fuel' year month givenDay = Some r.
Proof.
  revert fuel' givenDay. induction fuel as [|fuel IH]; intros fuel' givenDay Hle;
    [done|].
  destruct fuel' as [|fuel']; [lia|].
  cbn [friday13_loop]. case_match; [done|].
  apply IH; lia.
Qed.

Lemma getNextFridayThe13th_local (tz : Z) (fuel : nat) (x : Z) :
  getNextFridayThe13th tz fuel (Num (UTC tz x))
  = (λ r, number_sub r (Num tz)) <$> getNextFridayThe13th 0 fuel (Num x).
Proof.
  unfold getNextFridayThe13th, getDay, getFullYear, getMonth, on_time.
  rewrite LocalTime_UTC.
  replace (LocalTime 0 x) with x by (unfold LocalTime; lia).
  apply friday13_loop_local.
Qed.

(** A run in time zone 0 with fuel [fuel0] gives the run on the same local
    time in every time zone, with any fuel from [fuel0] on. *)
Lemma getNextFridayThe13th_run (tz : Z) (fuel0 fuel : nat) (x r : Z) :
  getNextFridayThe13th 0 fuel0 (Num x) = Some (Num r) →
  (fuel0 <= fuel)%nat →
  getNextFridayThe13th tz fuel (Num (UTC tz x)) = Some (Num (UTC tz r)).
Proof.
  intros Hrun Hfuel. rewrite getNextFridayThe13th_local.
  unfold getNextFridayThe13th in *.
  rewrite (friday13_loop_more_fuel 0 fuel0 fuel _ _ _ _ Hfuel Hrun).
  simpl. unfold UTC. do 2 f_equal; lia.
Qed.

(** The examples of the documentation, in every time zone: from January 13,
    2024 the result is September 13, 2024, and from February 1, 2023 it is
    October 13, 2023. *)
Lemma getNextFridayThe13th_examples (tz : Z) (fuel : nat) :
  (300 <= fuel)%nat →
  getNextFridayThe13th tz fuel (new_Date_ymd tz (Num 2024) (Num 0) (Num 13))
  = Some (new_Date_ymd tz (Num 2024) (Num 8) (Num 13))
  ∧ getNextFridayThe13th tz fuel (new_Date_ymd tz (Num 2023) (Num 1) (Num 1))
    = Some (new_Date_ymd tz (Num 2023) (Num 9) (Num 13)).
Proof.
  intros Hfuel. unfold new_Date_ymd.
  split; apply (getNextFridayThe13th_run tz 300);
    solve [done | vm_compute; reflexivity].
Qed.

(** C1, at September 20, 2024.  That day is a Friday, so [getDay] is 5 and
    the scan starts at [new Date(2024, 8, 5)]: it stops at September 13,
    2024, a Friday the 13th that lies a week before the input. *)
Theorem getNextFridayThe13th_before_input (tz : Z) (fuel : nat) :
  (9 <= fuel)%nat →
  let date := new_Date_ymd tz (Num 2024) (Num 8) (Num 20) in
  let friday13 := new_Date_ymd tz (Num 2024) (Num 8) (Num 13) in
  getDay tz date = Num 5
  ∧ getDate tz date = Num 20
  ∧ getNextFridayThe13th tz fuel date = Some friday13
  ∧ number_sub date friday13 = Num (7 * msPerDay).
Proof.
  intros Hfuel. cbv zeta. unfold new_Date_ymd.
  split; [|split; [|split]].
  - unfold getDay, on_time. rewrite LocalTime_UTC. vm_compute. reflexivity.
  - unfold getDate, on_time. rewrite LocalTime_UTC. vm_compute. reflexivity.
  - apply (getNextFridayThe13th_run tz 9);
      solve [done | vm_compute; reflexivity].
  - unfold number_sub, UTC. f_equal.
    match goal with
    | |- ?a - tz - (?b - tz) = _ =>
        replace (a - tz - (b - tz)) with (a - b) by lia
    end.
    vm_compute. reflexivity.
Qed.

Lemma getNextFridayThe13th_before_input_witness :
  (9 <= 9)%nat
  ∧ getNextFridayThe13th 0 9 (Num 1726790400000) = Some (Num 1726185600000).
Proof.
  split; [lia|].
  destruct (getNextFridayThe13th_before_input 0 9 (le_n 9))
    as (_ & _ & Hrun & _).
  exact Hrun.
Defined.

(** ** [getWorkSchedule] *)

Lemma filter_Forall_id {A : Type} (P : A → Prop) `{!∀ x, Decision (P x)}
    (l : list A) :
  Forall P l → filter P l = l.
Proof.
  induction 1 as [|x l Hx _ IH]; [done|].
  by rewrite filter_cons_True, IH.
Qed.

Lemma filter_Forall_nil {A : Type} (P : A → Prop) `{!∀ x, Decision (P x)}
    (l : list A) :
  Forall (λ x, ¬ P x) l → filter P l = [].
Proof.
  induction 1 as [|x l Hx _ IH]; [done|].
  by rewrite filter_cons_False, IH.
Qed.

(** The working days of one cycle of [w + o] days. *)
Section Cycle.

Variables w o : Z.
Hypothesis Hw : 1 <= w.
Hypothesis Ho : 0 <= o.

Lemma cycle_position (q r : Z) :
  0 <= r < w + o → (q * (w + o) + r) mod (w + o) = r.
Proof.
  intros Hr. rewrite Z.add_comm, Z.mod_add by lia. apply Z.mod_small. lia.
Qed.

Lemma filter_cycle_work (q n : Z) :
  n <= w →
  filter (λ j, j mod (w + o) < w) (seqZ (q * (w + o)) n)
  = seqZ (q * (w + o)) n.
Proof.
  intros Hn. apply filter_Forall_id, Forall_seqZ. intros j Hj.
  replace j with (q * (w + o) + (j - q * (w + o))) by lia.
  rewrite cycle_position; lia.
Qed.

Lemma filter_cycle_off (q n : Z) :
  n <= o →
  filter (λ j, j mod (w + o) < w) (seqZ (q * (w + o) + w) n) = [].
Proof.
  intros Hn. apply filter_Forall_nil, Forall_seqZ. intros j Hj.
  replace j with (q * (w + o) + (j - q * (w + o))) by lia.
  rewrite cycle_position; lia.
Qed.

Lemma filter_cycle_split (q n : Z) :
  w <= n →
  filter (λ j, j mod (w + o) < w) (seqZ (q * (w + o)) n)
  = seqZ (q * (w + o)) w
    ++ filter (λ j, j mod (w + o) < w)
         (seqZ ((q + 1) * (w + o)) (n - (w + o))).
Proof.
  intros Hn.
  replace n with (w + (n - w)) at 1 by lia.
  rewrite seqZ_app, filter_app, filter_cycle_work by lia. f_equal.
  destruct (Z_le_gt_dec o (n - w)) as [Hfull|Hpart].
  - replace (n - w) with (o + (n - (w + o))) by lia.
    rewrite seqZ_app, filter_app, filter_cycle_off by lia. simpl.
    do 2 f_equal. lia.
  - rewrite filter_cycle_off by lia.
    rewrite (seqZ_nil _ (n - (w + o))) by lia. done.
Qed.

End Cycle.

(** The loops of [getWorkSchedule] between two valid dates [s] and [e]. *)
Section Loops.

Variables tz s e : Z.

Lemma schedule_in_period (j : Z) :
  number_le (Num (s + j * msPerDay)) (Num e) = (j <=? (e - s) / msPerDay).
Proof.
  unfold number_le. apply eq_iff_eq_true. rewrite !Z.leb_le.
  unfold msPerDay. split; intros; div_lia.
Qed.

Lemma schedule_advance (j k : Z) :
  setDate tz (number_add (getDate tz (Num (s + j * msPerDay))) (Num k))
    (Num (s + j * msPerDay))
  = Num (s + (j + k) * msPerDay).
Proof. rewrite setDate_getDate_add. f_equal. lia. Qed.

(** A run of the [for] loop from day [j]: it emits the days [j .. j + k - 1],
    where [k] is [n] cut down to the days left in the period. *)
Lemma work_run_days (n : nat) (j k : Z) (schedule : list string) :
  k = Z.of_nat n `min` (0 `max` ((e - s) / msPerDay + 1 - j)) →
  work_run tz n (Num e) (Num (s + j * msPerDay), schedule)
  = (Num (s + (j + k) * msPerDay),
     schedule
     ++ ((λ i, formatScheduleDate tz (Num (s + i * msPerDay))) <$> seqZ j k)).
Proof.
  revert j k schedule. induction n as [|n IH]; intros j k schedule Hk.
  - replace k with 0 by lia. rewrite Z.add_0_r. simpl. by rewrite app_nil_r.
  - cbn [work_run]. rewrite schedule_in_period.
    destruct (j <=? (e - s) / msPerDay) eqn:Hin; bool_to_prop.
    + rewrite schedule_advance, (IH (j + 1) (k - 1)) by lia.
      rewrite (seqZ_cons j k) by lia. rewrite fmap_cons, <- app_assoc.
      replace (j + 1 + (k - 1)) with (j + k) by lia.
      replace (Z.succ j) with (j + 1) by lia.
      replace (Z.pred k) with (k - 1) by lia. done.
    + replace k with 0 by lia. rewrite Z.add_0_r. simpl. by rewrite app_nil_r.
Qed.

Variables w o : Z.
Hypothesis Hw : 1 <= w.
Hypothesis Ho : 0 <= o.

(** The [while] loop entered at the start of cycle [q]: with enough fuel it
    ends, having emitted the working days of the rest of the period. *)
Lemma schedule_loop_cycles (n : nat) (q : Z) (schedule : list string)
    (fuel : nat) :
  (e - s) / msPerDay + 1 - q * (w + o) <= Z.of_nat n →
  (n + 1 <= fuel)%nat →
  schedule_loop tz fuel w o (Num e) (Num (s + (q * (w + o)) * msPerDay), schedule)
  = Some (schedule
          ++ ((λ i, formatScheduleDate tz (Num (s + i * msPerDay)))
              <$> filter (λ j, j mod (w + o) < w)
                    (seqZ (q * (w + o))
                          ((e - s) / msPerDay + 1 - q * (w + o))))).
Proof.
  revert q schedule fuel.
  induction n as [|n IH]; intros q schedule fuel Hn Hfuel;
    (destruct fuel as [|fuel]; [lia|]);
    cbn [schedule_loop fst snd]; rewrite schedule_in_period;
    destruct (q * (w + o) <=? (e - s) / msPerDay) eqn:Hin; bool_to_prop;
    try lia;
    try (rewrite seqZ_nil by lia; simpl; by rewrite app_nil_r).
  remember (w `min` ((e - s) / msPerDay + 1 - q * (w + o))) as k eqn:Hk.
  rewrite (work_run_days (Z.to_nat w) (q * (w + o)) k schedule) by lia.
  rewrite schedule_in_period.
  destruct (q * (w + o) + k <=? (e - s) / msPerDay) eqn:Hnext; bool_to_prop.
  - rewrite schedule_advance.
    replace (q * (w + o) + k + o) with ((q + 1) * (w + o)) by lia.
    rewrite IH by lia.
    rewrite filter_cycle_split with (q := q) by lia.
    rewrite fmap_app, app_assoc.
    replace k with w by lia. do 5 f_equal. lia.
  - destruct fuel as [|fuel]; [lia|].
    cbn [schedule_loop fst snd]. rewrite schedule_in_period.
    destruct (q * (w + o) + k <=? (e - s) / msPerDay) eqn:Hout; bool_to_prop;
      [lia|].
    replace ((e - s) / msPerDay + 1 - q * (w + o)) with k by lia.
    rewrite filter_cycle_work by lia. done.
Qed.

End Loops.

(** Between two valid dates, and for at least one working day and no
    negative number of days off per cycle, [getWorkSchedule] ends and
    returns the working days of the period, in order. *)
Lemma getWorkSchedule_work_days (tz : Z) (period : DatePeriod) (w o s e : Z)
    (fuel : nat) :
  schedule_date tz (start period) = Num s →
  schedule_date tz (end_ period) = Num e →
  1 <= w → 0 <= o →
  (Z.to_nat ((e - s) / msPerDay + 1) + 1 <= fuel)%nat →
  getWorkSchedule tz fuel period w o
  = Some ((λ j, formatScheduleDate tz (Num (s + j * msPerDay)))
          <$> work_days w o ((e - s) / msPerDay + 1)).
Proof.
  intros Hs He Hw Ho Hfuel. unfold getWorkSchedule, work_days.
  rewrite Hs, He.
  pose proof (schedule_loop_cycles tz s e w o Hw Ho
                (Z.to_nat ((e - s) / msPerDay + 1)) 0 [] fuel) as H.
  rewrite Z.mul_0_l, Z.add_0_r, Z.sub_0_r in H. apply H; lia.
Qed.

(** Time values are read in local time only: in time zone [tz] the string
    of [UTC tz x] is the string of [x] in time zone 0. *)
Lemma formatScheduleDate_local (tz x : Z) :
  formatScheduleDate tz (Num (UTC tz x)) = formatScheduleDate 0 (Num x).
Proof.
  unfold formatScheduleDate, getDate, getMonth, getFullYear, on_time.
  rewrite LocalTime_UTC.
  replace (LocalTime 0 x) with x by (unfold LocalTime; lia). done.
Qed.

Lemma schedule_date_local (tz : Z) (str : string) :
  schedule_date tz str = number_sub (schedule_date 0 str) (Num tz).
Proof.
  unfold schedule_date.
  destruct (ToNumber (split "-" str !! 2%nat)) as [|y],
    (number_sub (ToNumber (split "-" str !! 1%nat)) (Num 1)) as [|m],
    (ToNumber (split "-" str !! 0%nat)) as [|d]; try reflexivity.
  unfold new_Date_ymd, number_sub, UTC. f_equal. lia.
Qed.






(** C3. For a period whose start is a valid date not after its valid end,
    and positive [countWorkDays] and [countOffDays], [getWorkSchedule]
    terminates: some amount of fuel is enough, and with that much or more
    the loop ends and returns one and the same finite schedule. *)
Theorem getWorkSchedule_terminates
    (tz : Z) (period : DatePeriod) (w o s e : Z) :
  schedule_date tz (start period) = Num s →
  schedule_date tz (end_ period) = Num e →
  s <= e → 0 < w → 0 < o →
  ∃ (fuel0 : nat) (schedule : list string),
    ∀ fuel : nat, (fuel0 <= fuel)%nat →
      getWorkSchedule tz fuel period w o = Some schedule.
Proof.
  intros Hs He Hse Hw Ho.
  exists (Z.to_nat ((e - s) / msPerDay + 1) + 1)%nat. eexists.
  intros fuel Hfuel.
  apply (getWorkSchedule_work_days tz period w o s e); auto with lia.
Qed.

Lemma getWorkSchedule_terminates_witness :
  schedule_date 0 "01-01-2024" = Num 1704067200000
  ∧ schedule_date 0 "15-01-2024" = Num 1705276800000
  ∧ ∃ (fuel0 : nat) (schedule : list string),
      ∀ fuel : nat, (fuel0 <= fuel)%nat →
        getWorkSchedule 0 fuel {| start := "01-01-2024"; end_ := "15-01-2024" |}
          2 5
        = Some schedule.
Proof.
  split; [reflexivity|]. split; [reflexivity|].
  exact (getWorkSchedule_terminates 0
           {| start := "01-01-2024"; end_ := "15-01-2024" |} 2 5
           1704067200000 1705276800000 eq_refl eq_refl
           ltac:(lia) ltac:(lia) ltac:(lia)).
Defined.

Lemma string_app_inj_length (a a' b b' : string) :
  String.length a = String.length a' →
  a +:+ b = a' +:+ b' → a = a' ∧ b = b'.
Proof.
  revert a'. induction a as [|x a IH]; intros [|x' a'] Hlen Heq;
    try discriminate; [done|].
  change (String x (a +:+ b) = String x' (a' +:+ b')) in Heq.
  injection Heq as -> Heq. injection Hlen as Hlen.
  destruct (IH a' Hlen Heq) as [-> ->]. done.
Qed.

Lemma two_last_check :
  forallb (λ n, match digits_value 0 (slice_last2 ("0" +:+ pretty n)) with
                | Some n' => (n' =? n)
                             && (String.length (slice_last2 ("0" +:+ pretty n))
                                 =? 2)%nat
                | None => false
                end) (seqZ 0 100)
  = true.
Proof. vm_compute. reflexivity. Qed.

(** The two characters that [formatScheduleDate] keeps of a day or a month
    number read back as that number. *)
Lemma two_last_value (n : Z) :
  0 <= n < 100 →
  digits_value 0 (slice_last2 ("0" +:+ pretty n)) = Some n
  ∧ String.length (slice_last2 ("0" +:+ pretty n)) = 2%nat.
Proof.
  intros Hn. pose proof two_last_check as H. rewrite forallb_forall in H.
  assert (Hin : In n (seqZ 0 100))
    by (apply list_elem_of_In, elem_of_seqZ; lia).
  specialize (H n Hin).
  destruct (digits_value 0 (slice_last2 ("0" +:+ pretty n))) as [n'|];
    [|discriminate].
  apply andb_true_iff in H as [H1 H2].
  apply Z.eqb_eq in H1 as ->. by apply Nat.eqb_eq in H2.
Qed.

(** The string of a date determines its calendar day: two dates with the
    same string lie on the same local day. *)
Lemma formatScheduleDate_day (tz t t' : Z) :
  formatScheduleDate tz (Num t) = formatScheduleDate tz (Num t') →
  Day (LocalTime tz t) = Day (LocalTime tz t').
Proof.
  unfold formatScheduleDate, getDate, getMonth, getFullYear, on_time, number_add,
    ToString.
  set (lt := LocalTime tz t). set (lt' := LocalTime tz t'). intros Heq.
  pose proof (DateFromTime_range lt) as Hd.
  pose proof (DateFromTime_range lt') as Hd'.
  pose proof (MonthFromTime_range lt) as Hm.
  pose proof (MonthFromTime_range lt') as Hm'.
  destruct (two_last_value (DateFromTime lt)) as [Hv1 Hl1]; [lia|].
  destruct (two_last_value (DateFromTime lt')) as [Hv1' Hl1']; [lia|].
  destruct (two_last_value (MonthFromTime lt + 1)) as [Hv2 Hl2]; [lia|].
  destruct (two_last_value (MonthFromTime lt' + 1)) as [Hv2' Hl2']; [lia|].
  apply string_app_inj_length in Heq as [Hdd Heq]; [|congruence].
  apply String.app_inj in Heq.
  apply string_app_inj_length in Heq as [Hmm Heq]; [|congruence].
  apply String.app_inj, (inj pretty) in Heq.
  rewrite Hdd in Hv1. rewrite Hmm in Hv2.
  assert (HD : DateFromTime lt = DateFromTime lt') by congruence.
  assert (HM : MonthFromTime lt = MonthFromTime lt') by (simplify_eq; lia).
  pose proof (MakeDay_of_time lt 0) as H. pose proof (MakeDay_of_time lt' 0) as H'.
  rewrite !Z.add_0_r in H, H'. rewrite <- H, <- H'. congruence.
Qed.

(** C9, at a period written in the year 50.  [getWorkSchedule] hands the
    year of ['01-01-0050'] to [new Date(year, month - 1, day)], which reads
    a year in 0..99 as 1900 + year: the period it walks through is January
    1 to January 3 of 1950, and the strings it returns name days of 1950,
    19 centuries after the end of the period as it is written. *)
Theorem getWorkSchedule_year_50 (tz : Z) (fuel : nat) :
  let period := {| start := "01-01-0050"; end_ := "03-01-0050" |} in
  getWorkSchedule tz (4 + fuel) period 1 1 = Some ["01-01-1950"; "03-01-1950"]
  ∧ schedule_date tz (start period) = new_Date_ymd tz (Num 1950) (Num 0) (Num 1)
  ∧ written_date (start period) = Some (50, 1, 1)
  ∧ written_date (end_ period) = Some (50, 1, 3)
  ∧ written_date "01-01-1950" = Some (1950, 1, 1)
  ∧ written_date "03-01-1950" = Some (1950, 1, 3)
  ∧ day_number (50, 1, 3) < day_number (1950, 1, 1).
Proof.
  cbv zeta. split; [|repeat split; reflexivity].
  rewrite (getWorkSchedule_work_days tz _ 1 1
             (UTC tz (-631152000000)) (UTC tz (-630979200000)));
    try lia; try (rewrite schedule_date_local; reflexivity).
  - replace ((UTC tz (-630979200000) - UTC tz (-631152000000)) / msPerDay + 1)
      with 3 by (unfold UTC;
                 replace (-630979200000 - tz - (-631152000000 - tz))
                   with 172800000 by lia; reflexivity).
    change (work_days 1 1 3) with [0; 2].
    cbn [fmap list_fmap]. unfold UTC.
    repeat match goal with
    | |- context [Num (?x - tz + ?j * msPerDay)] =>
        replace (x - tz + j * msPerDay) with (UTC tz (x + j * msPerDay))
          by (unfold UTC; lia)
    end.
    rewrite !formatScheduleDate_local. reflexivity.
  - unfold UTC.
    replace (-630979200000 - tz - (-631152000000 - tz)) with 172800000 by lia.
    vm_compute Z.to_nat. lia.
Qed.

(** The examples of the documentation of [getNextFriday]: from Saturday
    2024-02-03 to 2024-02-09, from Tuesday 2024-02-13 to 2024-02-16, and
    from Friday 2024-02-16 to 2024-02-23. *)
Lemma getNextFriday_examples (tz : Z) (h : gmap loc number) (date : loc) :
  let input1 := new_Date_string tz "2024-02-03T00:00:00Z" in
  let input2 := new_Date_string tz "2024-02-13T00:00:00Z" in
  let input3 := new_Date_string tz "2024-02-16T00:00:00Z" in
  (fst <$> getNextFriday tz date (<[date := input1]> h)) = Some date
  ∧ (snd <$> getNextFriday tz date (<[date := input1]> h)) ≫= lookup date
    = Some (new_Date_string tz "2024-02-09T00:00:00Z")
  ∧ (snd <$> getNextFriday tz date (<[date := input2]> h)) ≫= lookup date
    = Some (new_Date_string tz "2024-02-16T00:00:00Z")
  ∧ (snd <$> getNextFriday tz date (<[date := input3]> h)) ≫= lookup date
    = Some (new_Date_string tz "2024-02-23T00:00:00Z").
Proof.
  cbv zeta.
  repeat split;
    match goal with
    | |- context [<[date := new_Date_string tz ?str]> h] =>
        let v := eval vm_compute in (new_Date_string 0 str) in
        change (new_Date_string tz str) with v;
        match v with
        | Num ?t =>
            rewrite (getNextFriday_run tz (<[date := Num t]> h) date t)
              by apply lookup_insert_eq
        end
    end; simpl; rewrite ?lookup_insert_eq; reflexivity.
Qed.

(** * Further properties of the functions *)

(** ** Days of a year *)

Lemma YearFromDay_of_day (y k : Z) :
  0 <= k < DaysInYear y → YearFromDay (DayFromYear y + k) = y.
Proof.
  intros Hk. pose proof (YearFromDay_spec (DayFromYear y + k)) as [Hlo Hhi].
  set (y' := YearFromDay (DayFromYear y + k)) in *.
  pose proof (DayFromYear_succ y) as Hsucc.
  destruct (Z.lt_trichotomy y' y) as [Hlt | [Heq | Hgt]]; [|done|].
  - pose proof (DayFromYear_mono (y' + 1) y). lia.
  - pose proof (DayFromYear_mono (y + 1) y'). lia.
Qed.

(** Day [k] of year [y]: its year, its place in the year and the leap flag
    of its year. *)
Lemma day_of_year_fields (y k : Z) :
  0 <= k < DaysInYear y →
  let t := MakeDate (DayFromYear y + k) 0 in
  YearFromTime t = y
  ∧ DayWithinYear t = k
  ∧ InLeapYear t = (if DaysInYear y =? 365 then 0 else 1).
Proof.
  intros Hk t.
  assert (Hday : Day t = DayFromYear y + k)
    by (unfold t, MakeDate, Day, msPerDay; div_lia).
  assert (Hy : YearFromTime t = y)
    by (unfold YearFromTime; rewrite Hday; by apply YearFromDay_of_day).
  split; [done|]. split.
  - unfold DayWithinYear. rewrite Hy, Hday. lia.
  - unfold InLeapYear. by rewrite Hy.
Qed.

(** The day before the first of the month after month [m] (1..12) of year
    [y] is the last day of month [m]: its date is the length of the
    month. *)
Lemma last_day_of_month (y m : Z) :
  1 <= m <= 12 →
  DateFromTime (MakeDate (MakeDay y m 0) 0) = DaysInMonth y m.
Proof.
  intros Hm.
  assert (Hk : ∃ k, 0 <= k < DaysInYear y
                    ∧ MakeDay y m 0 = DayFromYear y + k
                    ∧ k = DayOfMonthStart (if DaysInYear y =? 365 then 0 else 1)
                            m - 1
                        + (if m =? 12 then 31 else 0)).
  { destruct (Z.eq_dec m 12) as [->|Hne].
    - exists (DaysInYear y - 1). unfold MakeDay; cbv zeta.
      change (12 / 12) with 1. change (12 mod 12) with 0.
      rewrite DayFromYear_succ.
      destruct (DaysInYear_cases y) as [Hd|Hd]; rewrite Hd; simpl; lia.
    - eexists. split; [|split; [|reflexivity]].
      + rewrite (proj2 (Z.eqb_neq m 12)) by done.
        destruct (DaysInYear_cases y) as [-> | ->]; simpl (_ =? _); cbv iota;
          (destruct m as [|p|p]; [lia| |lia]);
          do 11 (try destruct p as [p|p|]; try lia); simpl; lia.
      + unfold MakeDay; cbv zeta.
        rewrite (Z.div_small m 12), (Z.mod_small m 12) by lia.
        replace (y + 0) with y by lia.
        rewrite (proj2 (Z.eqb_neq m 12)) by done. lia. }
  destruct Hk as (k & Hrange & -> & Hkval).
  destruct (day_of_year_fields y k Hrange) as (_ & Hd & Hl).
  unfold DateFromTime, MonthFromTime; cbv zeta. rewrite Hd, Hl, Hkval.
  unfold DaysInMonth.
  destruct (DaysInYear_cases y) as [-> | ->]; simpl (_ =? _); cbv iota;
    (destruct m as [|p|p]; [lia| |lia]);
    do 11 (try destruct p as [p|p|]; try lia); reflexivity.
Qed.


(** ** [getCountDaysInMonth] *)

Lemma getCountDaysInMonth_value (tz m y : Z) :
  getCountDaysInMonth tz (Num m) (Num y)
  = Num (DateFromTime (MakeDate (MakeDay (constructor_year y) m 0) 0)).
Proof.
  unfold getCountDaysInMonth, new_Date_ymd, getDate, on_time.
  rewrite LocalTime_UTC. reflexivity.
Qed.

Lemma getCountDaysInMonth_days (tz m y : Z) :
  1 <= m <= 12 →
  getCountDaysInMonth tz (Num m) (Num y)
  = Num (DaysInMonth (constructor_year y) m).
Proof.
  intros Hm. by rewrite getCountDaysInMonth_value, last_day_of_month.
Qed.

Lemma constructor_year_id (y : Z) : ¬ (0 <= y <= 99) → constructor_year y = y.
Proof.
  intros Hy. unfold constructor_year.
  destruct ((0 <=? y) && (y <=? 99)) eqn:E; [bool_to_prop; lia|done].
Qed.

Lemma DaysInMonth_29 (y m : Z) :
  1 <= m <= 12 → DaysInMonth y m = 29 ↔ m = 2 ∧ DaysInYear y = 366.
Proof.
  intros Hm. unfold DaysInMonth.
  destruct (DaysInYear_cases y) as [-> | ->];
    simpl (_ =? _); cbv iota;
    (destruct m as [|p|p]; [lia| |lia]);
    do 4 (try destruct p as [p|p|]; try lia); split; try lia;
    intros [? ?]; lia.
Qed.

(** ** Dates within the range of time values *)

Lemma DayOfMonthStart_bounds (leap mn : Z) :
  0 <= leap <= 1 → 0 <= mn <= 11 → 0 <= DayOfMonthStart leap mn <= 335.
Proof.
  intros Hl Hm. destruct mn as [|p|p]; [simpl; lia| |lia].
  do 4 (try destruct p as [p|p|]; try lia); simpl; lia.
Qed.

(** The day that [MakeDay] builds in a month from 0 to 12 of a year from
    [a] to [b]. *)
Lemma MakeDay_year_bounds (a b y m d : Z) :
  a <= y <= b → 0 <= m <= 12 →
  DayFromYear a + d - 1 <= MakeDay y m d <= DayFromYear (b + 1) + d - 1.
Proof.
  intros Hy Hm. unfold MakeDay; cbv zeta.
  pose proof (DayFromYear_mono a y ltac:(lia)) as Ha.
  pose proof (DayFromYear_mono (y + 1) (b + 1) ltac:(lia)) as Hb.
  destruct (Z.eq_dec m 12) as [->|Hne].
  - change (12 / 12) with 1. change (12 mod 12) with 0.
    pose proof (DayFromYear_mono y (y + 1) ltac:(lia)).
    unfold DayOfMonthStart. lia.
  - rewrite (Z.div_small m 12), (Z.mod_small m 12) by lia.
    replace (y + 0) with y by lia.
    pose proof (DayFromYear_succ y) as Hsucc.
    assert (Hs : 0 <= DayOfMonthStart (if DaysInYear y =? 365 then 0 else 1) m
                 <= 335)
      by (apply DayOfMonthStart_bounds; [case_match|]; lia).
    destruct (DaysInYear_cases y); lia.
Qed.

Lemma constructor_year_bounds (a b y : Z) :
  a <= 1900 → 1999 <= b → a <= y <= b → a <= constructor_year y <= b.
Proof.
  intros Ha Hb Hy. unfold constructor_year. case_match; bool_to_prop; lia.
Qed.

(** Local midnight of a day less than 100 000 000 days from the epoch is
    a time value of the range, on a host at most a day from UTC. *)
Lemma local_midnight_in_range (tz D : Z) :
  Z.abs tz <= msPerDay → -99999999 <= D <= 99999999 →
  Z.abs (UTC tz (D * msPerDay)) <= maxTime.
Proof. unfold UTC, msPerDay, maxTime. lia. Qed.

(** The date that [new Date(year, month, date)] builds in a year from
    -271820 to [b], when [date] days after the end of year [b] the range has
    not ended. *)
Lemma new_Date_ymd_in_range (tz y m d b : Z) :
  Z.abs tz <= msPerDay → -271820 <= y <= b → 1999 <= b →
  0 <= m <= 12 → 0 <= d → DayFromYear (b + 1) + d <= 100000000 →
  ∃ t : Z, new_Date_ymd tz (Num y) (Num m) (Num d) = Num t
           ∧ Z.abs t <= maxTime.
Proof.
  intros Htz Hy Hb Hm Hd Hend. unfold new_Date_ymd. eexists. split; [reflexivity|].
  fold (constructor_year y).
  replace (MakeDate (MakeDay (constructor_year y) m d) (MakeTime 0 0 0 0))
    with (MakeDay (constructor_year y) m d * msPerDay)
    by (unfold MakeDate, MakeTime; lia).
  apply local_midnight_in_range; [done|].
  pose proof (constructor_year_bounds (-271820) b y ltac:(lia) Hb Hy) as Hc.
  pose proof (MakeDay_year_bounds (-271820) b _ m d Hc Hm) as H.
  change (DayFromYear (-271820)) with (-99999744) in H. lia.
Qed.



(** X2. A month number outside 1..12 runs into the neighbouring years:
    month [m + 12 * k] of year [y] is month [m] of year [y + k], when
    neither year is in 0..99. *)
Theorem getCountDaysInMonth_month_carry (tz m y k : Z) :
  ¬ (0 <= y <= 99) → ¬ (0 <= y + k <= 99) →
  getCountDaysInMonth tz (Num (m + 12 * k)) (Num y)
  = getCountDaysInMonth tz (Num m) (Num (y + k)).
Proof.
  intros Hy Hyk. rewrite !getCountDaysInMonth_value. do 3 f_equal.
  rewrite !constructor_year_id by done. unfold MakeDay; cbv zeta.
  replace (m + 12 * k) with (m + k * 12) by lia.
  rewrite Z.div_add, Z.mod_add by done.
  replace (y + (m / 12 + k)) with (y + k + m / 12) by lia. reflexivity.
Qed.

Lemma getCountDaysInMonth_month_carry_witness :
  ¬ (0 <= 2023 <= 99) ∧ ¬ (0 <= 2023 + 1 <= 99)
  ∧ getCountDaysInMonth 0 (Num (2 + 12 * 1)) (Num 2023)
    = getCountDaysInMonth 0 (Num 2) (Num (2023 + 1)).
Proof.
  split; [lia|]. split; [lia|].
  exact (getCountDaysInMonth_month_carry 0 2 2023 1 ltac:(lia) ltac:(lia)).
Defined.

(** ** [isLeapYear] *)

Lemma rem_zero_mod_zero (a b : Z) : (Z.rem a b =? 0) = (a mod b =? 0).
Proof.
  apply eq_iff_eq_true. rewrite !Z.eqb_eq.
  destruct (Z.eq_dec b 0) as [->|Hb].
  - by rewrite Z.rem_0_r_ext, Z.mod_0_r_ext.
  - rewrite Z.rem_divide, Z.mod_divide by done. done.
Qed.

Lemma isLeapYear_value (tz t : Z) :
  isLeapYear tz (Num t)
  = (DaysInYear (YearFromTime (LocalTime tz t)) =? 366).
Proof.
  unfold isLeapYear, getFullYear, on_time, number_rem, number_eq, DaysInYear.
  simpl (_ =? 0). cbv iota. rewrite !rem_zero_mod_zero.
  set (y := YearFromTime (LocalTime tz t)).
  destruct (y mod 4 =? 0) eqn:H4, (y mod 100 =? 0) eqn:H100,
    (y mod 400 =? 0) eqn:H400; bool_to_prop; try reflexivity; div_lia.
Qed.

(** X3. [isLeapYear] agrees with the calendar of the host: it is true
    exactly when the local year of the date has 366 days, that is (for a
    year outside 0..99) when [getCountDaysInMonth(2, year)] is 29.  For an
    Invalid Date it is false. *)
Theorem isLeapYear_february_29 (tz t : Z) :
  let year := YearFromTime (LocalTime tz t) in
  (isLeapYear tz (Num t) = true
   ↔ DayFromYear (year + 1) - DayFromYear year = 366)
  ∧ (¬ (0 <= year <= 99) →
     (isLeapYear tz (Num t) = true
      ↔ getCountDaysInMonth tz (Num 2) (getFullYear tz (Num t)) = Num 29))
  ∧ isLeapYear tz NaN = false.
Proof.
  intros year. rewrite isLeapYear_value. fold year.
  split; [|split; [|reflexivity]].
  - rewrite DayFromYear_succ, Z.eqb_eq. lia.
  - intros Hyear. unfold getFullYear, on_time. fold year.
    rewrite getCountDaysInMonth_days, constructor_year_id by (done || lia).
    pose proof (DaysInMonth_29 year 2 ltac:(lia)) as H29.
    rewrite Z.eqb_eq. split.
    + intros H. f_equal. apply H29. auto.
    + intros [= H]. apply H29 in H as [_ H]. done.
Qed.

(** ** [getQuarter] *)

Lemma getQuarter_value (tz t : Z) :
  getQuarter tz (Num t) = Num (MonthFromTime (LocalTime tz t) / 3 + 1).
Proof.
  pose proof (MonthFromTime_range (LocalTime tz t)) as Hm.
  unfold getQuarter, getMonth, on_time, number_lt, number_gt.
  repeat case_match; bool_to_prop; f_equal; div_lia.
Qed.

(** X4. For a valid date [getQuarter] is the local month (from 0) divided
    by 3, plus 1: a number from 1 to 4.  For an Invalid Date every test
    [month < ...] fails and the result is 4. *)
Theorem getQuarter_values (tz t : Z) :
  let month := MonthFromTime (LocalTime tz t) in
  getQuarter tz (Num t) = Num (month / 3 + 1)
  ∧ 1 <= month / 3 + 1 <= 4
  ∧ getQuarter tz NaN = Num 4.
Proof.
  intros month. pose proof (MonthFromTime_range (LocalTime tz t)) as Hm.
  fold month in Hm.
  split; [apply getQuarter_value|split; [div_lia|reflexivity]].
Qed.

Lemma MonthFromTime_monotone (t t' : Z) :
  YearFromTime t = YearFromTime t' → t <= t' →
  MonthFromTime t <= MonthFromTime t'.
Proof.
  intros Hy Hle.
  assert (Hd : DayWithinYear t <= DayWithinYear t').
  { unfold DayWithinYear. rewrite Hy. unfold Day, msPerDay. div_lia. }
  assert (Hl : InLeapYear t = InLeapYear t')
    by (unfold InLeapYear; by rewrite Hy).
  unfold MonthFromTime; cbv zeta. rewrite Hl.
  repeat case_match; bool_to_prop; lia.
Qed.

(** X5. Within one local year the quarter never decreases as the date
    advances. *)
Theorem getQuarter_monotone (tz t t' : Z) :
  t <= t' →
  YearFromTime (LocalTime tz t) = YearFromTime (LocalTime tz t') →
  ∃ q q' : Z,
    getQuarter tz (Num t) = Num q ∧ getQuarter tz (Num t') = Num q'
    ∧ q <= q'.
Proof.
  intros Hle Hy.
  rewrite !getQuarter_value.
  eexists _, _. split; [done|]. split; [done|].
  pose proof (MonthFromTime_monotone (LocalTime tz t) (LocalTime tz t') Hy) as H.
  unfold LocalTime in *. div_lia.
Qed.

Lemma getQuarter_monotone_witness :
  1706745600000 <= 1717200000000
  ∧ YearFromTime (LocalTime 0 1706745600000)
    = YearFromTime (LocalTime 0 1717200000000)
  ∧ ∃ q q' : Z,
      getQuarter 0 (Num 1706745600000) = Num q
      ∧ getQuarter 0 (Num 1717200000000) = Num q' ∧ q <= q'.
Proof.
  split; [lia|]. split; [reflexivity|].
  exact (getQuarter_monotone 0 1706745600000 1717200000000
           ltac:(lia) eq_refl).
Defined.

(** ** [getTime] *)

Lemma two_digits_value_check :
  forallb (λ n, match digits_value 0 (two_digits (Num n)) with
                | Some n' => n' =? n
                | None => false
                end) (seqZ 0 60)
  = true.
Proof. vm_compute. reflexivity. Qed.

(** The two characters of an hour, a minute or a second read back as that
    number. *)
Lemma two_digits_value (n : Z) :
  0 <= n < 60 → digits_value 0 (two_digits (Num n)) = Some n.
Proof.
  intros Hn. pose proof two_digits_value_check as H.
  rewrite forallb_forall in H.
  assert (Hin : In n (seqZ 0 60))
    by (apply list_elem_of_In, elem_of_seqZ; lia).
  specialize (H n Hin).
  destruct (digits_value 0 (two_digits (Num n))) as [n'|]; [|discriminate].
  by apply Z.eqb_eq in H as ->.
Qed.

Lemma string_length_app (a b : string) :
  String.length (a +:+ b) = (String.length a + String.length b)%nat.
Proof.
  induction a as [|x a IH]; [reflexivity|].
  change (S (String.length (a +:+ b)) = S (String.length a + String.length b)).
  by rewrite IH.
Qed.

Lemma getTime_fields (tz t : Z) :
  getTime tz (Num t)
  = two_digits (Num (HourFromTime (LocalTime tz t))) +:+ ":"
    +:+ two_digits (Num (MinFromTime (LocalTime tz t))) +:+ ":"
    +:+ two_digits (Num (SecFromTime (LocalTime tz t))).
Proof. reflexivity. Qed.

Lemma time_fields_range (t : Z) :
  0 <= HourFromTime t < 24 ∧ 0 <= MinFromTime t < 60 ∧ 0 <= SecFromTime t < 60.
Proof. unfold HourFromTime, MinFromTime, SecFromTime. repeat split; div_lia. Qed.

(** X6. For a valid date [getTime] is eight characters, [hh:mm:ss]: two
    characters each for the local hour, minute and second, which read back
    as those numbers.  For an Invalid Date it is ['NaN:NaN:NaN']. *)
Theorem getTime_shape (tz t : Z) :
  let lt := LocalTime tz t in
  (∃ hh mm ss : string,
     getTime tz (Num t) = hh +:+ ":" +:+ mm +:+ ":" +:+ ss
     ∧ String.length hh = 2%nat ∧ String.length mm = 2%nat
     ∧ String.length ss = 2%nat
     ∧ digits_value 0 hh = Some (HourFromTime lt)
     ∧ digits_value 0 mm = Some (MinFromTime lt)
     ∧ digits_value 0 ss = Some (SecFromTime lt))
  ∧ String.length (getTime tz (Num t)) = 8%nat
  ∧ getTime tz NaN = "NaN:NaN:NaN".
Proof.
  intros lt. destruct (time_fields_range lt) as (Hh & Hm & Hs).
  assert (Hlen : ∀ n, 0 <= n < 60 → String.length (two_digits (Num n)) = 2%nat)
    by apply two_digits_length.
  split; [|split; [|reflexivity]].
  - eexists _, _, _. split; [apply getTime_fields|].
    repeat split; try (apply Hlen; fold lt; lia);
      apply two_digits_value; fold lt; lia.
  - rewrite getTime_fields. fold lt.
    rewrite !string_length_app, !Hlen by lia. reflexivity.
Qed.

(** X7. Two valid dates have the same [getTime] string exactly when they
    fall on the same second of the local day. *)
Theorem getTime_same_second (tz t t' : Z) :
  getTime tz (Num t) = getTime tz (Num t')
  ↔ (LocalTime tz t / 1000) mod 86400 = (LocalTime tz t' / 1000) mod 86400.
Proof.
  rewrite !getTime_fields.
  set (lt := LocalTime tz t). set (lt' := LocalTime tz t').
  destruct (time_fields_range lt) as (Hh & Hm & Hs).
  destruct (time_fields_range lt') as (Hh' & Hm' & Hs').
  assert (Hfields :
    (lt / 1000) mod 86400 = (lt' / 1000) mod 86400
    ↔ HourFromTime lt = HourFromTime lt' ∧ MinFromTime lt = MinFromTime lt'
      ∧ SecFromTime lt = SecFromTime lt').
  { unfold HourFromTime, MinFromTime, SecFromTime, msPerHour, msPerMinute,
      msPerSecond. split; [intros H; repeat split|intros (? & ? & ?)]; div_lia. }
  rewrite Hfields. split.
  - intros Heq.
    apply string_app_inj_length in Heq as [Hhh Heq];
      [|rewrite !two_digits_length by lia; done].
    apply String.app_inj in Heq.
    apply string_app_inj_length in Heq as [Hmm Heq];
      [|rewrite !two_digits_length by lia; done].
    apply String.app_inj in Heq.
    pose proof (two_digits_value (HourFromTime lt) ltac:(lia)) as V1.
    pose proof (two_digits_value (MinFromTime lt) ltac:(lia)) as V2.
    pose proof (two_digits_value (SecFromTime lt) ltac:(lia)) as V3.
    rewrite Hhh in V1. rewrite Hmm in V2. rewrite Heq in V3.
    rewrite two_digits_value in V1, V2, V3 by lia.
    repeat split; congruence.
  - intros (-> & -> & ->). reflexivity.
Qed.

(** ** [getDayName] *)

Lemma weekDays_WeekDay (t t' : Z) :
  is_Some (weekDays (Num (WeekDay t)))
  ∧ (weekDays (Num (WeekDay t)) = weekDays (Num (WeekDay t'))
     ↔ WeekDay t = WeekDay t').
Proof.
  pose proof (WeekDay_range t) as H. pose proof (WeekDay_range t') as H'.
  destruct (WeekDay t) as [|p|p]; [| |lia];
    destruct (WeekDay t') as [|p'|p']; try lia;
    do 3 (try destruct p as [p|p|]; try lia);
    do 3 (try destruct p' as [p'|p'|]; try lia);
    (split; [by eexists|]); split; (discriminate || reflexivity).
Qed.

(** X8. Whatever way the host reads date strings: [getDayName] is
    [undefined] exactly for a string that is no valid date, a valid date at
    the epoch is a ['Thursday'], and two valid dates get the same name
    exactly when their UTC days are a whole number of weeks apart. *)
Theorem getDayName_weeks_apart (parse : string → number) (d d' : string) :
  (getDayName parse d = None ↔ parse d = NaN)
  ∧ (parse d = Num 0 → getDayName parse d = Some "Thursday")
  ∧ (∀ t t' : Z, parse d = Num t → parse d' = Num t' →
       (getDayName parse d = getDayName parse d'
        ↔ (Day t - Day t') mod 7 = 0)).
Proof.
  unfold getDayName, getUTCDay, on_time.
  split; [|split].
  - destruct (parse d) as [|t]; [done|].
    destruct (weekDays_WeekDay t t) as [[name ->] _]. done.
  - intros ->. reflexivity.
  - intros t t' -> ->. destruct (weekDays_WeekDay t t') as [_ ->].
    unfold WeekDay. split; intros; div_lia.
Qed.

(** ** [getCountWeekendsInMonth] *)







(** ** More on [getNextFriday] *)

(** X11. On an Invalid Date [getNextFriday] still returns its argument,
    which stays an Invalid Date, and leaves every other object that
    existed as it was. *)
Theorem getNextFriday_invalid_date
    (tz : Z) (h : gmap loc number) (date : loc) :
  h !! date = Some NaN →
  ∃ h' : gmap loc number,
    getNextFriday tz date h = Some (date, h')
    ∧ h' !! date = Some NaN
    ∧ (∀ l : loc, is_Some (h !! l) → h' !! l = h !! l).
Proof.
  intros Hdate.
  assert (Hfresh : fresh (dom h) ≠ date).
  { intros Heq. apply (is_fresh (dom h)). rewrite Heq.
    apply elem_of_dom. eauto. }
  unfold getNextFriday, bind, new_Date_copy, Date_get, Date_set, ret.
  rewrite Hdate; simpl. rewrite !lookup_insert_eq; simpl.
  rewrite lookup_insert_ne, Hdate by done. simpl.
  eexists. split; [reflexivity|]. split; [apply lookup_insert_eq|].
  intros l Hl. destruct (decide (l = date)) as [->|Hne].
  - by rewrite lookup_insert_eq.
  - rewrite lookup_insert_ne by done. apply lookup_insert_ne.
    intros Heq. apply (is_fresh (dom h)). rewrite Heq. by apply elem_of_dom.
Qed.

Lemma getNextFriday_invalid_date_witness :
  ({[1%positive := NaN]} : gmap loc number) !! 1%positive = Some NaN
  ∧ ∃ h' : gmap loc number,
      getNextFriday 0 1%positive {[1%positive := NaN]} = Some (1%positive, h')
      ∧ h' !! 1%positive = Some NaN.
Proof.
  assert (Hdate : ({[1%positive := NaN]} : gmap loc number) !! 1%positive
                  = Some NaN) by reflexivity.
  split; [exact Hdate|].
  destruct (getNextFriday_invalid_date 0 {[1%positive := NaN]} 1%positive Hdate)
    as (h' & Hrun & Hlook & _).
  exists h'. split; assumption.
Defined.

(** ** [getNextFridayThe13th]: every scan ends *)

(** The calendar repeats every 400 years, which are 146097 days and a
    whole number of weeks. *)
Lemma DayFromYear_cycle (y k : Z) :
  DayFromYear (y + 400 * k) = DayFromYear y + 146097 * k.
Proof. unfold DayFromYear. div_lia. Qed.

Lemma DaysInYear_cycle (y k : Z) : DaysInYear (y + 400 * k) = DaysInYear y.
Proof.
  unfold DaysInYear.
  replace ((y + 400 * k) mod 4) with (y mod 4) by div_lia.
  replace ((y + 400 * k) mod 100) with (y mod 100) by div_lia.
  replace ((y + 400 * k) mod 400) with (y mod 400) by div_lia.
  reflexivity.
Qed.

Lemma YearFromDay_cycle (D k : Z) :
  YearFromDay (D + 146097 * k) = YearFromDay D + 400 * k.
Proof.
  pose proof (YearFromDay_spec D) as H. rewrite DayFromYear_succ in H.
  replace (D + 146097 * k)
    with (DayFromYear (YearFromDay D + 400 * k) + (D - DayFromYear (YearFromDay D)))
    by (rewrite DayFromYear_cycle; lia).
  apply YearFromDay_of_day. rewrite DaysInYear_cycle. lia.
Qed.

Lemma Day_of_day (D : Z) : Day (D * msPerDay) = D.
Proof. unfold Day. by rewrite Z.div_mul. Qed.

Lemma is_friday13_cycle (D k : Z) :
  is_friday13 (D + 146097 * k) = is_friday13 D.
Proof.
  unfold is_friday13. f_equal.
  - unfold WeekDay. rewrite !Day_of_day. f_equal. div_lia.
  - f_equal.
    assert (Hy : YearFromTime ((D + 146097 * k) * msPerDay)
                 = YearFromTime (D * msPerDay) + 400 * k)
      by (unfold YearFromTime; rewrite !Day_of_day; apply YearFromDay_cycle).
    assert (Hd : DayWithinYear ((D + 146097 * k) * msPerDay)
                 = DayWithinYear (D * msPerDay)).
    { unfold DayWithinYear. rewrite Hy, DayFromYear_cycle, !Day_of_day. lia. }
    assert (Hl : InLeapYear ((D + 146097 * k) * msPerDay)
                 = InLeapYear (D * msPerDay))
      by (unfold InLeapYear; by rewrite Hy, DaysInYear_cycle).
    unfold DateFromTime, MonthFromTime; cbv zeta. by rewrite Hd, Hl.
Qed.

Lemma covered_sound (gap : Z) (l : list Z) (lo hi D : Z) :
  covered gap lo l hi = true → lo <= D <= hi →
  ∃ f : Z, is_friday13 f = true ∧ D <= f <= D + gap.
Proof.
  revert lo. induction l as [|f l IH]; intros lo Hc HD; cbn [covered] in Hc.
  - bool_to_prop. lia.
  - destruct (is_friday13 f) eqn:Hf; [|by apply (IH lo)].
    bool_to_prop. destruct (Z_le_gt_dec D f) as [Hle|Hgt].
    + exists f. split; [done|lia].
    + apply (IH (f + 1)); [done|lia].
Qed.

Lemma thirteenths_covered : covered 426 0 thirteenths 146096 = true.
Proof. vm_compute. reflexivity. Qed.

(** From every day on, there is a Friday the 13th within 426 days. *)
Lemma friday13_nearby (D : Z) :
  ∃ k : Z, 0 <= k <= 426 ∧ is_friday13 (D + k) = true.
Proof.
  destruct (covered_sound 426 thirteenths 0 146096 (D mod 146097)
              thirteenths_covered) as (f & Hf & Hrange); [div_lia|].
  exists (f - D mod 146097). split; [lia|].
  replace (D + (f - D mod 146097)) with (f + 146097 * (D / 146097)) by div_lia.
  by rewrite is_friday13_cycle.
Qed.

(** The first day on which a test holds, below a day on which it holds. *)
Lemma first_true (P : Z → bool) (n : Z) :
  0 <= n → P n = true →
  ∃ k : Z, 0 <= k <= n ∧ P k = true ∧ ∀ j : Z, 0 <= j < k → P j = false.
Proof.
  intros Hn. revert P. pattern n. apply natlike_ind; [| |exact Hn].
  - intros P HP. exists 0. split; [lia|]. split; [done|]. intros; lia.
  - clear n Hn. intros n Hn IH P HP.
    destruct (P 0) eqn:H0.
    + exists 0. split; [lia|]. split; [done|]. intros; lia.
    + destruct (IH (λ j, P (j + 1))) as (k & Hk & HPk & Hfirst).
      { by replace (n + 1) with (Z.succ n) by lia. }
      exists (k + 1). split; [lia|]. split; [done|].
      intros j Hj. destruct (Z.eq_dec j 0) as [->|Hne]; [done|].
      replace j with (j - 1 + 1) by lia. apply Hfirst. lia.
Qed.

Lemma MakeDate_midnight (D : Z) : MakeDate D (MakeTime 0 0 0 0) = D * msPerDay.
Proof. unfold MakeDate, MakeTime. lia. Qed.

(** The test of the loop, on the day that [new Date(year, month, givenDay)]
    builds. *)
Lemma friday13_test (tz y m d : Z) :
  number_eq (getDay tz (new_Date_ymd tz (Num y) (Num m) (Num d))) (Num 5)
  && number_eq (getDate tz (new_Date_ymd tz (Num y) (Num m) (Num d))) (Num 13)
  = is_friday13 (MakeDay (constructor_year y) m d).
Proof.
  unfold new_Date_ymd, getDay, getDate, on_time, number_eq, is_friday13.
  rewrite LocalTime_UTC, MakeDate_midnight. reflexivity.
Qed.

Lemma MakeDay_add_date (y m d k : Z) : MakeDay y m (d + k) = MakeDay y m d + k.
Proof. unfold MakeDay. lia. Qed.

(** The scan from [givenDay] ends on the first Friday the 13th it meets,
    [k] days on, as soon as the fuel allows [k + 1] iterations. *)
Lemma friday13_loop_first (tz : Z) (fuel : nat) (y m d k : Z) :
  0 <= k → (Z.to_nat k < fuel)%nat →
  (∀ j : Z, 0 <= j < k →
     is_friday13 (MakeDay (constructor_year y) m d + j) = false) →
  is_friday13 (MakeDay (constructor_year y) m d + k) = true →
  friday13_loop tz fuel (Num y) (Num m) (Num d)
  = Some (new_Date_ymd tz (Num y) (Num m) (Num (d + k))).
Proof.
  revert d k. induction fuel as [|fuel IH]; intros d k Hk Hfuel Hnone Hfound;
    [lia|].
  cbn [friday13_loop]. rewrite friday13_test.
  destruct (Z.eq_dec k 0) as [->|Hne].
  - rewrite Z.add_0_r in Hfound. rewrite Hfound. by rewrite Z.add_0_r.
  - rewrite <- (Z.add_0_r (MakeDay _ m d)), Hnone by lia.
    unfold number_add. rewrite (IH (d + 1) (k - 1)); try lia.
    + do 3 f_equal. lia.
    + intros j Hj. rewrite MakeDay_add_date.
      replace (MakeDay (constructor_year y) m d + 1 + j)
        with (MakeDay (constructor_year y) m d + (j + 1)) by lia.
      apply Hnone. lia.
    + rewrite MakeDay_add_date.
      replace (MakeDay (constructor_year y) m d + 1 + (k - 1))
        with (MakeDay (constructor_year y) m d + k) by lia.
      done.
Qed.

(** X12. For a valid date in a local year from -271820 to 275758, so that
    no date of the scan leaves the range of dates, the scan of
    [getNextFridayThe13th] ends within 427 iterations.  It goes through the
    dates [new Date(year, month, givenDay + j)], built from the year and the
    month of the date and from its week day, and returns the first of them,
    at most 426 days from the first, that is a Friday and a 13th in local
    time. *)
Theorem getNextFridayThe13th_total (tz t : Z) :
  let year := getFullYear tz (Num t) in
  let month := getMonth tz (Num t) in
  let givenDay := getDay tz (Num t) in
  let nextFullDate := λ j : Z,
    new_Date_ymd tz year month (number_add givenDay (Num j)) in
  -271820 <= YearFromTime (LocalTime tz t) <= 275758 →
  Z.abs tz <= msPerDay →
  ∃ k : Z,
    0 <= k <= 426
    ∧ (∀ fuel : nat, (427 <= fuel)%nat →
         getNextFridayThe13th tz fuel (Num t) = Some (nextFullDate k))
    ∧ getDay tz (nextFullDate k) = Num 5
    ∧ getDate tz (nextFullDate k) = Num 13
    ∧ (∀ j : Z, 0 <= j < k →
         ¬ (getDay tz (nextFullDate j) = Num 5
            ∧ getDate tz (nextFullDate j) = Num 13))
    ∧ (∀ j : Z, 0 <= j <= k →
         ∃ r : Z, nextFullDate j = Num r ∧ Z.abs r <= maxTime).
Proof.
  cbv zeta. unfold getNextFridayThe13th. intros Hyear Htz.
  set (y := YearFromTime (LocalTime tz t)) in *.
  set (m := MonthFromTime (LocalTime tz t)).
  set (d := WeekDay (LocalTime tz t)).
  change (getFullYear tz (Num t)) with (Num y).
  change (getMonth tz (Num t)) with (Num m).
  change (getDay tz (Num t)) with (Num d).
  unfold number_add.
  set (B := MakeDay (constructor_year y) m d).
  destruct (friday13_nearby B) as (n & Hn & Hfound).
  destruct (first_true (λ j, is_friday13 (B + j)) n ltac:(lia) Hfound)
    as (k & Hk & Hfk & Hfirst).
  assert (Htest : ∀ j, getDay tz (new_Date_ymd tz (Num y) (Num m) (Num (d + j)))
                       = Num 5
                       ∧ getDate tz (new_Date_ymd tz (Num y) (Num m) (Num (d + j)))
                         = Num 13
                       ↔ is_friday13 (B + j) = true).
  { intros j. pose proof (friday13_test tz y m (d + j)) as H.
    rewrite MakeDay_add_date in H. fold B in H. rewrite <- H.
    rewrite andb_true_iff. unfold number_eq.
    destruct (getDay tz _) as [|a], (getDate tz _) as [|b];
      rewrite ?Z.eqb_eq; split; intros [H1 H2]; try discriminate;
      split; congruence. }
  exists k. split; [lia|].
  split; [|split; [by apply Htest|split; [by apply Htest|split]]].
  - intros fuel Hfuel.
    apply (friday13_loop_first tz fuel y m d k); [lia|lia| |]; fold B; done.
  - intros j Hj Hboth. apply Htest in Hboth.
    rewrite (Hfirst j Hj) in Hboth. discriminate.
  - intros j Hj. pose proof (WeekDay_range (LocalTime tz t)) as Hd. fold d in Hd.
    pose proof (MonthFromTime_range (LocalTime tz t)) as Hm. fold m in Hm.
    apply (new_Date_ymd_in_range tz y m (d + j) 275758); try lia.
    change (DayFromYear (275758 + 1)) with 99999379. lia.
Qed.

Lemma getNextFridayThe13th_total_witness :
  -271820 <= YearFromTime (LocalTime 0 1705104000000) <= 275758
  ∧ Z.abs 0 <= msPerDay
  ∧ ∃ k : Z,
      0 <= k <= 426
      ∧ ∀ fuel : nat, (427 <= fuel)%nat →
          getNextFridayThe13th 0 fuel (Num 1705104000000)
          = Some (new_Date_ymd 0 (Num 2024) (Num 0) (Num (6 + k))).
Proof.
  assert (Hyear : -271820 <= YearFromTime (LocalTime 0 1705104000000) <= 275758)
    by (vm_compute; split; discriminate).
  assert (Htz : Z.abs 0 <= msPerDay) by (vm_compute; discriminate).
  split; [exact Hyear|]. split; [exact Htz|].
  destruct (getNextFridayThe13th_total 0 1705104000000 Hyear Htz)
    as (k & Hk & Hrun & _).
  exists k. split; [exact Hk|]. exact Hrun.
Defined.

(** X13. On an Invalid Date the scan never ends: whatever the number of
    iterations allowed, no date is returned. *)
Theorem getNextFridayThe13th_invalid_date (tz : Z) (fuel : nat) :
  getNextFridayThe13th tz fuel NaN = None.
Proof.
  unfold getNextFridayThe13th. simpl.
  induction fuel as [|fuel IH]; [reflexivity|exact IH].
Qed.

(** ** More on [getWorkSchedule] *)

(** X14. When a date of the period is invalid, or when the end lies before
    the start, [getWorkSchedule] returns the empty schedule at once,
    whatever the two counts. *)
Theorem getWorkSchedule_empty_period
    (tz : Z) (period : DatePeriod) (w o : Z) (fuel : nat) :
  (1 <= fuel)%nat →
  schedule_date tz (start period) = NaN
  ∨ schedule_date tz (end_ period) = NaN
  ∨ (∃ s e : Z, schedule_date tz (start period) = Num s
                ∧ schedule_date tz (end_ period) = Num e ∧ e < s) →
  getWorkSchedule tz fuel period w o = Some [].
Proof.
  intros Hfuel Hperiod. destruct fuel as [|fuel]; [lia|].
  unfold getWorkSchedule. cbn [schedule_loop fst snd].
  destruct Hperiod as [-> | [-> | (s & e & -> & -> & Hlt)]].
  - reflexivity.
  - by destruct (schedule_date tz (start period)).
  - unfold number_le. by rewrite (proj2 (Z.leb_gt s e)).
Qed.

Lemma getWorkSchedule_empty_period_witness :
  (1 <= 1)%nat
  ∧ getWorkSchedule 0 1 {| start := "15-01-2024"; end_ := "01-01-2024" |} 1 3
    = Some [].
Proof.
  split; [lia|].
  apply getWorkSchedule_empty_period; [lia|].
  right. right. exists 1705276800000, 1704067200000.
  split; [reflexivity|]. split; [reflexivity|lia].
Defined.

Lemma work_run_no_work (tz : Z) (w : Z) (endDate : number)
    (st : number * list string) :
  w <= 0 → work_run tz (Z.to_nat w) endDate st = st.
Proof. intros Hw. by rewrite Z2Nat.nonpos. Qed.

(** X15. Without working days ([countWorkDays <= 0]) and with
    [countOffDays >= 1], [getWorkSchedule] ends and returns the empty
    schedule: the loop only steps over the period. *)
Theorem getWorkSchedule_no_work_days
    (tz : Z) (period : DatePeriod) (w o s e : Z) :
  schedule_date tz (start period) = Num s →
  schedule_date tz (end_ period) = Num e →
  w <= 0 → 1 <= o →
  ∃ fuel0 : nat, ∀ fuel : nat, (fuel0 <= fuel)%nat →
    getWorkSchedule tz fuel period w o = Some [].
Proof.
  intros Hs He Hw Ho. unfold getWorkSchedule. rewrite Hs, He.
  exists (Z.to_nat ((e - s) / msPerDay + 1) + 1)%nat.
  assert (Hloop : ∀ (n : nat) (j : Z) (fuel : nat),
            (e - s) / msPerDay + 1 - j <= Z.of_nat n → (n + 1 <= fuel)%nat →
            schedule_loop tz fuel w o (Num e) (Num (s + j * msPerDay), [])
            = Some []).
  { induction n as [|n IH]; intros j fuel Hn Hfuel;
      (destruct fuel as [|fuel]; [lia|]);
      cbn [schedule_loop fst snd]; rewrite schedule_in_period;
      destruct (j <=? (e - s) / msPerDay) eqn:Hin; bool_to_prop;
      try lia; try reflexivity.
    rewrite work_run_no_work by done.
    rewrite schedule_in_period, (proj2 (Z.leb_le _ _) Hin), schedule_advance.
    apply IH; lia. }
  intros fuel Hfuel.
  pose proof (Hloop (Z.to_nat ((e - s) / msPerDay + 1)) 0 fuel) as H.
  rewrite Z.mul_0_l, Z.add_0_r in H. apply H; lia.
Qed.

Lemma getWorkSchedule_no_work_days_witness :
  schedule_date 0 "01-01-2024" = Num 1704067200000
  ∧ schedule_date 0 "15-01-2024" = Num 1705276800000
  ∧ ∃ fuel0 : nat, ∀ fuel : nat, (fuel0 <= fuel)%nat →
      getWorkSchedule 0 fuel {| start := "01-01-2024"; end_ := "15-01-2024" |}
        0 3
      = Some [].
Proof.
  split; [reflexivity|]. split; [reflexivity|].
  exact (getWorkSchedule_no_work_days 0
           {| start := "01-01-2024"; end_ := "15-01-2024" |} 0 3
           1704067200000 1705276800000 eq_refl eq_refl
           ltac:(lia) ltac:(lia)).
Defined.

(** X16. Without working days ([countWorkDays <= 0]) and with
    [countOffDays = 0], on a period whose start is not after its end, the
    loop of [getWorkSchedule] never ends: the date does not move, and no
    number of iterations gives a result. *)
Theorem getWorkSchedule_never_ends
    (tz : Z) (period : DatePeriod) (w s e : Z) (fuel : nat) :
  schedule_date tz (start period) = Num s →
  schedule_date tz (end_ period) = Num e →
  s <= e → w <= 0 →
  getWorkSchedule tz fuel period w 0 = None.
Proof.
  intros Hs He Hse Hw. unfold getWorkSchedule. rewrite Hs, He.
  assert (Hin : number_le (Num s) (Num e) = true)
    by (unfold number_le; apply Z.leb_le; lia).
  assert (Hstay : setDate tz (number_add (getDate tz (Num s)) (Num 0)) (Num s)
                  = Num s)
    by (rewrite setDate_getDate_add; f_equal; lia).
  generalize (@nil string). induction fuel as [|fuel IH]; intros schedule;
    [reflexivity|].
  cbn [schedule_loop fst snd].
  rewrite Hin, work_run_no_work, Hin, Hstay by done. apply IH.
Qed.

Lemma getWorkSchedule_never_ends_witness :
  schedule_date 0 "01-01-2024" = Num 1704067200000
  ∧ schedule_date 0 "15-01-2024" = Num 1705276800000
  ∧ getWorkSchedule 0 1000 {| start := "01-01-2024"; end_ := "15-01-2024" |}
      0 0
    = None.
Proof.
  split; [reflexivity|]. split; [reflexivity|].
  exact (getWorkSchedule_never_ends 0
           {| start := "01-01-2024"; end_ := "15-01-2024" |} 0
           1704067200000 1705276800000 1000 eq_refl eq_refl
           ltac:(lia) ltac:(lia)).
Defined.






(** ** Reading back the strings of a schedule *)







(** ** More on [getWeekNumberByDate] *)

Lemma January_1_offset_range (lt : Z) : 1 <= January_1_offset lt <= 7.
Proof.
  unfold January_1_offset; cbv zeta.
  pose proof (WeekDay_range (TimeFromYear (YearFromTime lt))).
  case_match; bool_to_prop; lia.
Qed.

(** ** [getCountDaysOnPeriod] *)

Lemma getCountDaysOnPeriod_whole (tz : Z) (a b : string) (ta tb : Z) :
  new_Date_string tz a = Num ta → new_Date_string tz b = Num tb →
  (tb - ta) mod msPerDay = 0 →
  getCountDaysOnPeriod tz a b = WholeDays ((tb - ta) / msPerDay + 1).
Proof.
  intros Ha Hb Hmod. unfold getCountDaysOnPeriod. rewrite Ha, Hb.
  unfold number_sub. change (1000 * 60 * 60 * 24) with msPerDay.
  by rewrite Hmod.
Qed.

(** X22. Between valid dates that are whole days apart (such as dates
    given without a time) [getCountDaysOnPeriod] counts the days with both
    ends included: 1 from a date to itself, and [2 - n] backwards when it is
    [n] forwards.  The count from [a] to [c] is the count from [a] to [b] plus
    the count from [b] to [c], less the day [b] counted twice; and [b] is in
    the period from [a] to [c], as [isDateInPeriod] tells it, exactly when
    both counts are at least 1. *)
Theorem getCountDaysOnPeriod_inclusive
    (tz : Z) (a b c : string) (ta tb tc : Z) :
  new_Date_string tz a = Num ta →
  new_Date_string tz b = Num tb →
  new_Date_string tz c = Num tc →
  (tb - ta) mod msPerDay = 0 → (tc - tb) mod msPerDay = 0 →
  ∃ n1 n2 : Z,
    getCountDaysOnPeriod tz a b = WholeDays n1
    ∧ getCountDaysOnPeriod tz b c = WholeDays n2
    ∧ getCountDaysOnPeriod tz a c = WholeDays (n1 + n2 - 1)
    ∧ getCountDaysOnPeriod tz a a = WholeDays 1
    ∧ getCountDaysOnPeriod tz b a = WholeDays (2 - n1)
    ∧ (isDateInPeriod tz b {| start := a; end_ := c |} = true
       ↔ 1 <= n1 ∧ 1 <= n2).
Proof.
  intros Ha Hb Hc Hab Hbc.
  exists ((tb - ta) / msPerDay + 1), ((tc - tb) / msPerDay + 1).
  split; [by apply getCountDaysOnPeriod_whole|].
  split; [by apply getCountDaysOnPeriod_whole|].
  split; [|split; [|split]].
  - rewrite (getCountDaysOnPeriod_whole tz a c ta tc) by
      (try done; unfold msPerDay in *; div_lia).
    f_equal. unfold msPerDay in *. div_lia.
  - rewrite (getCountDaysOnPeriod_whole tz a a ta ta) by
      (try done; by rewrite Z.sub_diag).
    by rewrite Z.sub_diag.
  - rewrite (getCountDaysOnPeriod_whole tz b a tb ta) by
      (try done; unfold msPerDay in *; div_lia).
    f_equal. unfold msPerDay in *. div_lia.
  - unfold isDateInPeriod. cbn [start end_]. rewrite Ha, Hb, Hc.
    unfold number_ge, number_le. rewrite andb_true_iff, !Z.leb_le.
    unfold msPerDay in *. split; intros [? ?]; split; div_lia.
Qed.

Lemma getCountDaysOnPeriod_inclusive_witness :
  new_Date_string 0 "2024-02-01" = Num 1706745600000
  ∧ new_Date_string 0 "2024-02-12" = Num 1707696000000
  ∧ new_Date_string 0 "2024-03-02" = Num 1709337600000
  ∧ ∃ n1 n2 : Z,
      getCountDaysOnPeriod 0 "2024-02-01" "2024-02-12" = WholeDays n1
      ∧ getCountDaysOnPeriod 0 "2024-02-12" "2024-03-02" = WholeDays n2
      ∧ getCountDaysOnPeriod 0 "2024-02-01" "2024-03-02"
        = WholeDays (n1 + n2 - 1).
Proof.
  split; [reflexivity|]. split; [reflexivity|]. split; [reflexivity|].
  destruct (getCountDaysOnPeriod_inclusive 0
              "2024-02-01" "2024-02-12" "2024-03-02"
              1706745600000 1707696000000 1709337600000
              eq_refl eq_refl eq_refl eq_refl eq_refl)
    as (n1 & n2 & H1 & H2 & H3 & _).
  exists n1, n2. repeat split; assumption.
Defined.






(** ** [getNextFridayThe13th]: where the result lies *)

(** The scan from [new Date(y, m, d)] on: the first Friday the 13th, at
    most 426 days on. *)
Lemma friday13_scan (tz y m d : Z) :
  ∃ k : Z,
    0 <= k <= 426
    ∧ is_friday13 (MakeDay (constructor_year y) m d + k) = true
    ∧ (∀ j : Z, 0 <= j < k →
         is_friday13 (MakeDay (constructor_year y) m d + j) = false)
    ∧ (∀ fuel : nat, (427 <= fuel)%nat →
         friday13_loop tz fuel (Num y) (Num m) (Num d)
         = Some (Num (UTC tz ((MakeDay (constructor_year y) m d + k)
                              * msPerDay)))).
Proof.
  set (B := MakeDay (constructor_year y) m d).
  destruct (friday13_nearby B) as (n & Hn & Hfound).
  destruct (first_true (λ j, is_friday13 (B + j)) n ltac:(lia) Hfound)
    as (k & Hk & Hfk & Hfirst).
  exists k. split; [lia|]. split; [done|]. split; [done|].
  intros fuel Hfuel.
  rewrite (friday13_loop_first tz fuel y m d k); [|lia|lia|done|done].
  unfold new_Date_ymd. fold (constructor_year y).
  by rewrite MakeDate_midnight, MakeDay_add_date.
Qed.

Ltac month_cases m :=
  destruct m as [|m|m]; [| |lia];
  [|do 4 (try destruct m as [m|m|]; try lia)].

Lemma month_start_bounds (leap mn : Z) :
  0 <= leap <= 1 → 0 <= mn <= 11 →
  0 <= DayOfMonthStart leap mn
  ∧ DayOfMonthStart leap mn + 28 <= DayOfMonthNext leap mn
  ∧ DayOfMonthNext leap mn <= 365 + leap.
Proof.
  intros Hl Hm. unfold DayOfMonthNext.
  month_cases mn; simpl; lia.
Qed.

(** A day lies between the start of its month and the start of the next. *)
Lemma month_interval (t : Z) :
  DayOfMonthStart (InLeapYear t) (MonthFromTime t) <= DayWithinYear t
  < DayOfMonthNext (InLeapYear t) (MonthFromTime t).
Proof.
  pose proof (DayWithinYear_range t) as Hd.
  assert (Hlen : DaysInYear (YearFromTime t) = 365 + InLeapYear t).
  { unfold InLeapYear.
    destruct (DaysInYear_cases (YearFromTime t)) as [-> | ->]; reflexivity. }
  rewrite Hlen in Hd. unfold MonthFromTime; cbv zeta.
  generalize dependent (DayWithinYear t). generalize (InLeapYear t).
  intros leap d Hd.
  repeat case_match; bool_to_prop; unfold DayOfMonthNext; simpl; lia.
Qed.

(** A day between the start of month [mn] and the start of the next is a
    day of month [mn]. *)
Lemma month_unique (t mn : Z) :
  0 <= mn <= 11 →
  DayOfMonthStart (InLeapYear t) mn <= DayWithinYear t
  < DayOfMonthNext (InLeapYear t) mn →
  MonthFromTime t = mn.
Proof.
  intros Hm. unfold MonthFromTime; cbv zeta.
  destruct (InLeapYear_cases t) as [-> | ->];
    generalize (DayWithinYear t); intros d; unfold DayOfMonthNext;
    month_cases mn; simpl; intros Hd; repeat case_match; bool_to_prop; lia.
Qed.

(** The days around a day [lt] that lie in its month: [j] days from it, the
    date is [j] more, as long as it stays between 1 and 28, or between 1 and
    the date of [lt]. *)
Lemma DateFromTime_same_month (lt j : Z) :
  1 <= DateFromTime lt + j →
  DateFromTime lt + j <= 28 ∨ j <= 0 →
  DateFromTime ((Day lt + j) * msPerDay) = DateFromTime lt + j.
Proof.
  intros Hlo Hhi.
  set (y := YearFromTime lt). set (t' := (Day lt + j) * msPerDay).
  pose proof (DateFromTime_DayOfMonthStart lt) as Hstart.
  pose proof (month_interval lt) as Hint.
  pose proof (MonthFromTime_range lt) as Hm.
  assert (Hl : 0 <= InLeapYear lt <= 1)
    by (destruct (InLeapYear_cases lt) as [-> | ->]; lia).
  destruct (month_start_bounds (InLeapYear lt) (MonthFromTime lt) Hl Hm)
    as (Hs0 & Hs28 & Hs365).
  assert (Hlen : DaysInYear y = 365 + InLeapYear lt).
  { unfold InLeapYear. fold y.
    destruct (DaysInYear_cases y) as [-> | ->]; reflexivity. }
  assert (Hrange : 0 <= DayWithinYear lt + j < DaysInYear y) by lia.
  destruct (day_of_year_fields y (DayWithinYear lt + j) Hrange)
    as (_ & H1 & H2).
  replace (MakeDate (DayFromYear y + (DayWithinYear lt + j)) 0)
    with t' in H1, H2
    by (unfold t', MakeDate, DayWithinYear; fold y; lia).
  assert (Hleap : InLeapYear t' = InLeapYear lt)
    by (rewrite H2; unfold InLeapYear; by fold y).
  assert (Hmonth : MonthFromTime t' = MonthFromTime lt)
    by (apply month_unique; [done|]; rewrite Hleap, H1; lia).
  pose proof (DateFromTime_DayOfMonthStart t') as Hstart'.
  rewrite Hleap, Hmonth, H1 in Hstart'. lia.
Qed.

(** A Friday the 13th [o] days from a day [lt], no earlier than the eve of
    the month of [lt] and no later than its 28th (or than [lt]), is the 13th
    of that month. *)
Lemma friday13_in_month (lt o : Z) :
  is_friday13 (Day lt + o) = true →
  0 <= DateFromTime lt + o →
  o <= 0 ∨ DateFromTime lt + o <= 28 →
  DateFromTime lt + o = 13.
Proof.
  intros Hf Hlo Hhi. unfold is_friday13 in Hf. bool_to_prop.
  destruct (Z.eq_dec (DateFromTime lt + o) 0) as [Hzero|Hne].
  - exfalso. set (u := (Day lt + o) * msPerDay) in *.
    pose proof (DateFromTime_same_month u 1 ltac:(lia) ltac:(lia)) as Hnext.
    unfold u in Hnext at 1. rewrite Day_of_day in Hnext.
    pose proof (DateFromTime_range lt) as Hd.
    pose proof (DateFromTime_same_month lt (o + 1) ltac:(lia) ltac:(lia)) as H1.
    replace (Day lt + o + 1) with (Day lt + (o + 1)) in Hnext by lia.
    lia.
  - rewrite <- (DateFromTime_same_month lt o) by lia. done.
Qed.

(** X24. Where the result of [getNextFridayThe13th] lies, for a valid date
    whose local year is outside 0..99 and between -271820 and 275758.  The
    result is a time value of the range, the local midnight of a Friday
    the 13th.  When the date lies after the 13th of its month and that 13th
    is a Friday, the result is that earlier day.  In every other case the
    result is the first Friday the 13th on or after the day of the date. *)
Theorem getNextFridayThe13th_result (tz t : Z) :
  let lt := LocalTime tz t in
  ¬ (0 <= YearFromTime lt <= 99) →
  -271820 <= YearFromTime lt <= 275758 →
  Z.abs tz <= msPerDay →
  ∃ r : Z,
    (∀ fuel : nat, (427 <= fuel)%nat →
       getNextFridayThe13th tz fuel (Num t) = Some (Num r))
    ∧ Z.abs r <= maxTime
    ∧ TimeWithinDay (LocalTime tz r) = 0
    ∧ is_friday13 (Day (LocalTime tz r)) = true
    ∧ (if (13 <? DateFromTime lt)
          && is_friday13 (Day lt - DateFromTime lt + 13)
       then Day (LocalTime tz r) = Day lt - DateFromTime lt + 13
       else Day lt <= Day (LocalTime tz r)
            ∧ ∀ D : Z, Day lt <= D < Day (LocalTime tz r) →
                is_friday13 D = false).
Proof.
  intros lt Hyear Hrange Htz. unfold getNextFridayThe13th.
  change (getFullYear tz (Num t)) with (Num (YearFromTime lt)).
  change (getMonth tz (Num t)) with (Num (MonthFromTime lt)).
  change (getDay tz (Num t)) with (Num (WeekDay lt)).
  destruct (friday13_scan tz (YearFromTime lt) (MonthFromTime lt) (WeekDay lt))
    as (k & Hk & Hfk & Hfirst & Hrun).
  rewrite constructor_year_id in * by done.
  pose proof (MakeDay_year_bounds (-271820) 275758 _ (MonthFromTime lt)
                (WeekDay lt) Hrange
                ltac:(pose proof (MonthFromTime_range lt); lia)) as Hbounds.
  change (DayFromYear (-271820)) with (-99999744) in Hbounds.
  change (DayFromYear (275758 + 1)) with 99999379 in Hbounds.
  pose proof (MakeDay_of_time lt (WeekDay lt - DateFromTime lt)) as HB.
  replace (DateFromTime lt + (WeekDay lt - DateFromTime lt)) with (WeekDay lt)
    in HB by lia.
  rewrite HB in *. clear HB.
  pose proof (WeekDay_range lt) as Hwd.
  pose proof (DateFromTime_range lt) as Hdate.
  set (I := Day lt) in *. set (date := DateFromTime lt) in *.
  set (wd := WeekDay lt) in *.
  exists (UTC tz ((I + (wd - date) + k) * msPerDay)).
  rewrite LocalTime_UTC, Day_of_day.
  split; [exact Hrun|].
  split; [apply local_midnight_in_range; [done|lia]|].
  split; [unfold TimeWithinDay; by rewrite Z.mod_mul|].
  split; [exact Hfk|].
  assert (Hmonth : ∀ o, is_friday13 (I + o) = true → 0 <= date + o →
                        o <= 0 ∨ date + o <= 28 → date + o = 13)
    by (intros o; apply friday13_in_month).
  destruct ((13 <? date) && is_friday13 (I - date + 13)) eqn:Hcase.
  - bool_to_prop.
    destruct (Z.lt_trichotomy k (13 - wd)) as [Hlt | [Heq | Hgt]]; [|lia|].
    + pose proof (Hmonth (wd - date + k)) as Hm.
      replace (I + (wd - date + k)) with (I + (wd - date) + k) in Hm by lia.
      specialize (Hm Hfk ltac:(lia) ltac:(lia)). lia.
    + pose proof (Hfirst (13 - wd) ltac:(lia)) as Hnot.
      replace (I + (wd - date) + (13 - wd)) with (I - date + 13) in Hnot by lia.
      congruence.
  - assert (Hbefore : ∀ o, wd - date <= o < 0 → is_friday13 (I + o) = false).
    { intros o Ho. destruct (is_friday13 (I + o)) eqn:Hf; [|done].
      pose proof (Hmonth o Hf ltac:(lia) ltac:(lia)) as H13.
      replace (I + o) with (I - date + 13) in Hf by lia.
      apply andb_false_iff in Hcase as [Hc|Hc]; bool_to_prop; [lia|congruence]. }
    assert (Hafter : ∀ o, 0 <= o < wd - date → is_friday13 (I + o) = false).
    { intros o Ho. destruct (is_friday13 (I + o)) eqn:Hf; [|done].
      pose proof (Hmonth o Hf ltac:(lia) ltac:(lia)) as H13. lia. }
    assert (Hge : 0 <= wd - date + k).
    { destruct (Z_le_gt_dec 0 (wd - date + k)) as [|Hneg]; [done|].
      pose proof (Hbefore (wd - date + k) ltac:(lia)) as Hnot.
      replace (I + (wd - date + k)) with (I + (wd - date) + k) in Hnot by lia.
      congruence. }
    split; [lia|]. intros D HD.
    destruct (Z_le_gt_dec (I + (wd - date)) D) as [Hin|Hout].
    + replace D with (I + (wd - date) + (D - (I + (wd - date)))) by lia.
      apply Hfirst. lia.
    + replace D with (I + (D - I)) by lia. apply Hafter. lia.
Qed.

Lemma getNextFridayThe13th_result_witness :
  ¬ (0 <= YearFromTime (LocalTime 0 1726790400000) <= 99)
  ∧ -271820 <= YearFromTime (LocalTime 0 1726790400000) <= 275758
  ∧ Z.abs 0 <= msPerDay
  ∧ ∃ r : Z,
      (∀ fuel : nat, (427 <= fuel)%nat →
         getNextFridayThe13th 0 fuel (Num 1726790400000) = Some (Num r))
      ∧ Day (LocalTime 0 r) = Day (LocalTime 0 1726790400000) - 7.
Proof.
  assert (Hyear : ¬ (0 <= YearFromTime (LocalTime 0 1726790400000) <= 99))
    by (vm_compute; intros [_ H]; apply H; reflexivity).
  assert (Hrange : -271820 <= YearFromTime (LocalTime 0 1726790400000)
                   <= 275758)
    by (vm_compute; split; discriminate).
  assert (Htz : Z.abs 0 <= msPerDay) by (vm_compute; discriminate).
  split; [exact Hyear|]. split; [exact Hrange|]. split; [exact Htz|].
  destruct (getNextFridayThe13th_result 0 1726790400000 Hyear Hrange Htz)
    as (r & Hrun & _ & _ & _ & Hcase).
  exists r. split; [exact Hrun|]. exact Hcase.
Defined.

(** ** The functions together *)

(** X26. A string that is no valid date is not rejected by the functions
    that take date strings: [formatDate] renders every field as [NaN] (with
    AM), [isDateInPeriod] answers false whether the string is the date, the
    start or the end, and [getCountDaysOnPeriod] gives no count. *)
Theorem invalid_date_string (tz : Z) (bad other other' : string) :
  new_Date_string tz bad = NaN →
  formatDate tz bad = "NaN/NaN/NaN, NaN:NaN:NaN AM"
  ∧ isDateInPeriod tz bad {| start := other; end_ := other' |} = false
  ∧ isDateInPeriod tz other {| start := bad; end_ := other' |} = false
  ∧ isDateInPeriod tz other {| start := other'; end_ := bad |} = false
  ∧ getCountDaysOnPeriod tz bad other = NoCount
  ∧ getCountDaysOnPeriod tz other bad = NoCount.
Proof.
  intros Hbad.
  unfold formatDate, isDateInPeriod, getCountDaysOnPeriod. cbn [start end_].
  rewrite !Hbad.
  destruct (new_Date_string tz other) as [|x],
    (new_Date_string tz other') as [|x'];
    repeat split; try reflexivity;
    unfold number_ge, number_le; by rewrite ?andb_false_r.
Qed.

Lemma invalid_date_string_witness :
  new_Date_string 0 "yesterday" = NaN
  ∧ formatDate 0 "yesterday" = "NaN/NaN/NaN, NaN:NaN:NaN AM".
Proof.
  split; [reflexivity|].
  destruct (invalid_date_string 0 "yesterday" "2024-02-02" "2024-03-02"
              eq_refl) as [H _].
  exact H.
Defined.

(** * On a host with time zone rules and a bounded range of dates *)

Section ZonedFacts.

Variable host : Z → bool → Z.

Lemma TimeClip_in_range (t : Z) : Z.abs t <= maxTime → TimeClip t = Num t.
Proof. intros Ht. unfold TimeClip. by rewrite (proj2 (Z.leb_le _ _)). Qed.

(** Setting the date of a [Date] to its own date plus [k] moves it by [k]
    whole days, when the offset of the host is the same at the date and at
    the local time [k] days on, and the new date is in the range. *)
Lemma Zoned_setDate_getDate_add (t k c : Z) :
  host t true = c →
  host (t + c + k * msPerDay) false = c →
  Z.abs (t + k * msPerDay) <= maxTime →
  Zoned.setDate host (number_add (Zoned.getDate host (Num t)) (Num k)) (Num t)
  = Num (t + k * msPerDay).
Proof.
  intros Hc Hc' Hrange.
  unfold Zoned.setDate, Zoned.getDate, on_time, number_add; cbv zeta.
  unfold Zoned.LocalTime. rewrite Hc. rewrite MakeDay_of_time.
  assert (Hlocal : MakeDate (Day (t + c) + k) (TimeWithinDay (t + c))
                   = t + c + k * msPerDay).
  { pose proof (Day_TimeWithinDay (t + c)) as H. unfold MakeDate in *. lia. }
  rewrite Hlocal. unfold Zoned.UTC. rewrite Hc'.
  replace (t + c + k * msPerDay - c) with (t + k * msPerDay) by lia.
  by apply TimeClip_in_range.
Qed.

(** [getNextFriday] while the offset of the host stays the same and the
    range does not end: the date moves by [addedDays] whole days. *)
Lemma Zoned_getNextFriday_run (h : gmap loc number) (date : loc) (t c : Z) :
  h !! date = Some (Num t) →
  Z.abs c <= msPerDay →
  Zoned.steady host c (t - msPerDay) (t + 8 * msPerDay) →
  - maxTime <= t → t + 7 * msPerDay <= maxTime →
  let currentDay := WeekDay t in
  let addedDays := if 5 <=? currentDay then 5 - currentDay + 7
                   else 5 - currentDay in
  Zoned.getNextFriday host date h
  = Some (date, <[date := Num (t + addedDays * msPerDay)]>
                  (<[fresh (dom h) := Num t]> h)).
Proof.
  intros Hdate Hc Hsteady Hlo Hhi currentDay addedDays.
  assert (Hfresh : fresh (dom h) ≠ date).
  { intros Heq. apply (is_fresh (dom h)). rewrite Heq.
    apply elem_of_dom. eauto. }
  pose proof (WeekDay_range t) as Hwd. fold currentDay in Hwd.
  assert (Hadd : 1 <= addedDays <= 7)
    by (unfold addedDays; case_match; bool_to_prop; lia).
  unfold Zoned.getNextFriday, bind, new_Date_copy, Date_get, Date_set, ret.
  rewrite Hdate; simpl. rewrite !lookup_insert_eq; simpl.
  rewrite lookup_insert_ne, Hdate by done.
  do 3 f_equal.
  unfold getUTCDay, on_time, number_ge, number_le, number_sub.
  fold currentDay.
  assert (Hset : Zoned.setDate host
                   (number_add (Zoned.getDate host (Num t)) (Num addedDays))
                   (Num t)
                 = Num (t + addedDays * msPerDay)).
  { apply (Zoned_setDate_getDate_add t addedDays c).
    - apply Hsteady. unfold msPerDay. lia.
    - apply Hsteady. unfold msPerDay in *. lia.
    - unfold msPerDay, maxTime in *. lia. }
  unfold addedDays in Hset. destruct (5 <=? currentDay); exact Hset.
Qed.

End ZonedFacts.

(** In winter the host [new_york_2024] is five hours behind UTC. *)
Lemma new_york_2024_winter (lo hi : Z) :
  hi < 1710039600000 → Zoned.steady new_york_2024 (-18000000) lo hi.
Proof.
  intros Hhi u isUTC Hu. unfold new_york_2024.
  destruct isUTC.
  - rewrite (proj2 (Z.leb_gt 1710054000000 u)) by lia. reflexivity.
  - rewrite (proj2 (Z.leb_gt 1710039600000 u)) by lia. reflexivity.
Qed.

(** X27. On a host whose offset from UTC stays the same from a day before
    a valid date to eight days after it, and for a date at least seven days
    before the end of the range of dates, [getNextFriday] leaves in its
    argument the date advanced by [addedDays] whole days, where [addedDays] is
    [5 - currentDay] for the UTC week day [currentDay] of the date, plus 7
    when [currentDay >= 5].  That date is a Friday (UTC), strictly after the
    date, no later than any Friday a whole number of days after it, and 7
    days after it when the date is itself a Friday. *)
Theorem getNextFriday_steady_offset
    (host : Z → bool → Z) (h : gmap loc number) (date : loc) (t c : Z) :
  h !! date = Some (Num t) →
  Z.abs c <= msPerDay →
  Zoned.steady host c (t - msPerDay) (t + 8 * msPerDay) →
  - maxTime <= t → t + 7 * msPerDay <= maxTime →
  let currentDay := WeekDay t in
  let addedDays := if 5 <=? currentDay then 5 - currentDay + 7
                   else 5 - currentDay in
  ∃ (h' : gmap loc number) (t' : Z),
    Zoned.getNextFriday host date h = Some (date, h')
    ∧ h' !! date = Some (Num t')
    ∧ t' = t + addedDays * msPerDay
    ∧ WeekDay t' = 5
    ∧ t < t'
    ∧ (∀ k : Z, 0 < k → WeekDay (t + k * msPerDay) = 5 →
         t' <= t + k * msPerDay)
    ∧ (currentDay = 5 → t' = t + 7 * msPerDay)
    ∧ (∀ l : loc, l ≠ date → is_Some (h !! l) → h' !! l = h !! l).
Proof.
  intros Hdate Hc Hsteady Hlo Hhi currentDay addedDays.
  pose proof (Zoned_getNextFriday_run host h date t c Hdate Hc Hsteady Hlo Hhi)
    as Hrun.
  cbv zeta in Hrun. fold currentDay in Hrun. fold addedDays in Hrun.
  pose proof (WeekDay_range t) as Hwd. fold currentDay in Hwd.
  assert (Hadd : 1 <= addedDays <= 7 ∧ (currentDay + addedDays) mod 7 = 5
                 ∧ (currentDay = 5 → addedDays = 7)).
  { unfold addedDays. case_match; bool_to_prop; repeat split; try lia; div_lia. }
  destruct Hadd as (Hrange & Hmod & Hfri).
  eexists _, _. split; [exact Hrun|].
  split; [apply lookup_insert_eq|].
  split; [reflexivity|].
  split; [rewrite WeekDay_add_days; exact Hmod|].
  split; [unfold msPerDay; lia|].
  split; [|split].
  - intros k Hk Hfriday. rewrite WeekDay_add_days in Hfriday.
    fold currentDay in Hfriday.
    assert (addedDays <= k) by div_lia. unfold msPerDay; lia.
  - intros H5. rewrite (Hfri H5). reflexivity.
  - intros l Hne Hsome.
    rewrite lookup_insert_ne by done.
    apply lookup_insert_ne. intros Heq.
    apply (is_fresh (dom h)). rewrite Heq. by apply elem_of_dom.
Qed.

Lemma getNextFriday_steady_offset_witness :
  ({[1%positive := Num 1706918400000]} : gmap loc number) !! 1%positive
  = Some (Num 1706918400000)
  ∧ Z.abs (-18000000) <= msPerDay
  ∧ Zoned.steady new_york_2024 (-18000000)
      (1706918400000 - msPerDay) (1706918400000 + 8 * msPerDay)
  ∧ - maxTime <= 1706918400000
  ∧ 1706918400000 + 7 * msPerDay <= maxTime
  ∧ ∃ (h' : gmap loc number) (t' : Z),
      Zoned.getNextFriday new_york_2024 1%positive
        {[1%positive := Num 1706918400000]}
      = Some (1%positive, h')
      ∧ h' !! 1%positive = Some (Num t')
      ∧ t' = 1706918400000 + 6 * msPerDay
      ∧ WeekDay t' = 5.
Proof.
  assert (Hdate : ({[1%positive := Num 1706918400000]} : gmap loc number)
                  !! 1%positive = Some (Num 1706918400000)) by reflexivity.
  assert (Hc : Z.abs (-18000000) <= msPerDay) by (vm_compute; discriminate).
  assert (Hsteady : Zoned.steady new_york_2024 (-18000000)
                      (1706918400000 - msPerDay)
                      (1706918400000 + 8 * msPerDay))
    by (apply new_york_2024_winter; reflexivity).
  assert (Hlo : - maxTime <= 1706918400000) by (vm_compute; discriminate).
  assert (Hhi : 1706918400000 + 7 * msPerDay <= maxTime)
    by (vm_compute; discriminate).
  split; [exact Hdate|]. split; [exact Hc|]. split; [exact Hsteady|].
  split; [exact Hlo|]. split; [exact Hhi|].
  destruct (getNextFriday_steady_offset new_york_2024
              {[1%positive := Num 1706918400000]} 1%positive 1706918400000
              (-18000000) Hdate Hc Hsteady Hlo Hhi)
    as (h' & t' & Hrun & Hlook & Ht' & Hfri & _).
  exists h', t'. repeat split; assumption.
Defined.

(** X10. Called twice on the same valid date, on a host whose offset stays
    the same from a day before the date to fifteen days after it and at
    least fourteen days before the end of the range of dates,
    [getNextFriday] moves the date to the next Friday and then, the date
    being a Friday now, by exactly 7 days more; both calls return the
    argument itself. *)
Theorem getNextFriday_twice
    (host : Z → bool → Z) (h : gmap loc number) (date : loc) (t c : Z) :
  h !! date = Some (Num t) →
  Z.abs c <= msPerDay →
  Zoned.steady host c (t - msPerDay) (t + 15 * msPerDay) →
  - maxTime <= t → t + 14 * msPerDay <= maxTime →
  ∃ (h1 h2 : gmap loc number) (t1 : Z),
    Zoned.getNextFriday host date h = Some (date, h1)
    ∧ h1 !! date = Some (Num t1)
    ∧ WeekDay t1 = 5
    ∧ Zoned.getNextFriday host date h1 = Some (date, h2)
    ∧ h2 !! date = Some (Num (t1 + 7 * msPerDay)).
Proof.
  intros Hdate Hc Hsteady Hlo Hhi.
  assert (Hsteady1 : Zoned.steady host c (t - msPerDay) (t + 8 * msPerDay))
    by (intros u b Hu; apply Hsteady; unfold msPerDay in *; lia).
  pose proof (Zoned_getNextFriday_run host h date t c Hdate Hc Hsteady1 Hlo
                ltac:(unfold msPerDay in *; lia)) as Hrun1.
  cbv zeta in Hrun1.
  pose proof (WeekDay_range t) as Hwd.
  set (a := if 5 <=? WeekDay t then 5 - WeekDay t + 7 else 5 - WeekDay t) in *.
  assert (Ha : 1 <= a <= 7) by (unfold a; case_match; bool_to_prop; lia).
  set (t1 := t + a * msPerDay) in *.
  set (h1 := <[date := Num t1]> (<[fresh (dom h) := Num t]> h)) in *.
  assert (Hfri : WeekDay t1 = 5).
  { unfold t1, a. rewrite WeekDay_add_days.
    case_match; bool_to_prop; div_lia. }
  assert (Hdate1 : h1 !! date = Some (Num t1)) by apply lookup_insert_eq.
  assert (Hsteady2 : Zoned.steady host c (t1 - msPerDay) (t1 + 8 * msPerDay))
    by (intros u b Hu; apply Hsteady; unfold t1, msPerDay in *; lia).
  pose proof (Zoned_getNextFriday_run host h1 date t1 c Hdate1 Hc Hsteady2
                ltac:(unfold t1, msPerDay, maxTime in *; lia)
                ltac:(unfold t1, msPerDay, maxTime in *; lia)) as Hrun2.
  cbv zeta in Hrun2. rewrite Hfri in Hrun2. simpl (5 <=? 5) in Hrun2.
  cbv iota in Hrun2.
  eexists h1, _, t1. split; [exact Hrun1|]. split; [exact Hdate1|].
  split; [exact Hfri|]. split; [exact Hrun2|].
  rewrite lookup_insert_eq. do 2 f_equal.
Qed.

Lemma getNextFriday_twice_witness :
  ({[1%positive := Num 1706918400000]} : gmap loc number) !! 1%positive
  = Some (Num 1706918400000)
  ∧ Z.abs (-18000000) <= msPerDay
  ∧ Zoned.steady new_york_2024 (-18000000)
      (1706918400000 - msPerDay) (1706918400000 + 15 * msPerDay)
  ∧ - maxTime <= 1706918400000
  ∧ 1706918400000 + 14 * msPerDay <= maxTime
  ∧ ∃ (h1 h2 : gmap loc number) (t1 : Z),
      Zoned.getNextFriday new_york_2024 1%positive
        {[1%positive := Num 1706918400000]}
      = Some (1%positive, h1)
      ∧ Zoned.getNextFriday new_york_2024 1%positive h1 = Some (1%positive, h2)
      ∧ h2 !! 1%positive = Some (Num (t1 + 7 * msPerDay)).
Proof.
  assert (Hdate : ({[1%positive := Num 1706918400000]} : gmap loc number)
                  !! 1%positive = Some (Num 1706918400000)) by reflexivity.
  assert (Hc : Z.abs (-18000000) <= msPerDay) by (vm_compute; discriminate).
  assert (Hsteady : Zoned.steady new_york_2024 (-18000000)
                      (1706918400000 - msPerDay)
                      (1706918400000 + 15 * msPerDay))
    by (apply new_york_2024_winter; reflexivity).
  assert (Hlo : - maxTime <= 1706918400000) by (vm_compute; discriminate).
  assert (Hhi : 1706918400000 + 14 * msPerDay <= maxTime)
    by (vm_compute; discriminate).
  split; [exact Hdate|]. split; [exact Hc|]. split; [exact Hsteady|].
  split; [exact Hlo|]. split; [exact Hhi|].
  destruct (getNextFriday_twice new_york_2024
              {[1%positive := Num 1706918400000]} 1%positive 1706918400000
              (-18000000) Hdate Hc Hsteady Hlo Hhi)
    as (h1 & h2 & t1 & Hrun1 & _ & _ & Hrun2 & Hlook).
  exists h1, h2, t1. repeat split; assumption.
Defined.

(** X25. On a host whose offset stays the same from a day before a valid
    date to eight days after it, at least seven days before the end of the
    range of dates, the date that [getNextFriday] leaves in its argument is
    a Friday for [getDayName]: whatever string the host reads as that date,
    [getDayName] of it is ['Friday']. *)
Theorem getNextFriday_getDayName
    (host : Z → bool → Z) (h : gmap loc number) (date : loc) (t c : Z)
    (parse : string → number) (s : string) :
  h !! date = Some (Num t) →
  Z.abs c <= msPerDay →
  Zoned.steady host c (t - msPerDay) (t + 8 * msPerDay) →
  - maxTime <= t → t + 7 * msPerDay <= maxTime →
  ∃ (h' : gmap loc number) (t' : Z),
    Zoned.getNextFriday host date h = Some (date, h')
    ∧ h' !! date = Some (Num t')
    ∧ (parse s = Num t' → getDayName parse s = Some "Friday").
Proof.
  intros Hdate Hc Hsteady Hlo Hhi.
  pose proof (Zoned_getNextFriday_run host h date t c Hdate Hc Hsteady Hlo Hhi)
    as Hrun.
  cbv zeta in Hrun.
  eexists _, _. split; [exact Hrun|]. split; [apply lookup_insert_eq|].
  intros Hs. unfold getDayName, getUTCDay, on_time. rewrite Hs.
  rewrite WeekDay_add_days. pose proof (WeekDay_range t) as Hwd.
  replace ((WeekDay t + (if 5 <=? WeekDay t then 5 - WeekDay t + 7
                         else 5 - WeekDay t)) mod 7) with 5
    by (case_match; bool_to_prop; div_lia).
  reflexivity.
Qed.

Lemma getNextFriday_getDayName_witness :
  ({[1%positive := Num 1707782400000]} : gmap loc number) !! 1%positive
  = Some (Num 1707782400000)
  ∧ Z.abs (-18000000) <= msPerDay
  ∧ Zoned.steady new_york_2024 (-18000000)
      (1707782400000 - msPerDay) (1707782400000 + 8 * msPerDay)
  ∧ - maxTime <= 1707782400000
  ∧ 1707782400000 + 7 * msPerDay <= maxTime
  ∧ ∃ (h' : gmap loc number) (t' : Z),
      Zoned.getNextFriday new_york_2024 1%positive
        {[1%positive := Num 1707782400000]}
      = Some (1%positive, h')
      ∧ h' !! 1%positive = Some (Num t')
      ∧ (new_Date_string 0 "2024-02-16T00:00:00Z" = Num t' →
         getDayName (new_Date_string 0) "2024-02-16T00:00:00Z"
         = Some "Friday").
Proof.
  assert (Hdate : ({[1%positive := Num 1707782400000]} : gmap loc number)
                  !! 1%positive = Some (Num 1707782400000)) by reflexivity.
  assert (Hc : Z.abs (-18000000) <= msPerDay) by (vm_compute; discriminate).
  assert (Hsteady : Zoned.steady new_york_2024 (-18000000)
                      (1707782400000 - msPerDay)
                      (1707782400000 + 8 * msPerDay))
    by (apply new_york_2024_winter; reflexivity).
  assert (Hlo : - maxTime <= 1707782400000) by (vm_compute; discriminate).
  assert (Hhi : 1707782400000 + 7 * msPerDay <= maxTime)
    by (vm_compute; discriminate).
  split; [exact Hdate|]. split; [exact Hc|]. split; [exact Hsteady|].
  split; [exact Hlo|]. split; [exact Hhi|].
  exact (getNextFriday_getDayName new_york_2024
           {[1%positive := Num 1707782400000]} 1%positive 1707782400000
           (-18000000) (new_Date_string 0) "2024-02-16T00:00:00Z"
           Hdate Hc Hsteady Hlo Hhi).
Defined.

(** ** [getWeekNumberByDate] *)

(** The week number on a host whose offset is the same at the date and at
    the start of its local year, which lies in the range of dates. *)
Lemma Zoned_getWeekNumberByDate_formula (host : Z → bool → Z) (t c : Z) :
  let lt := t + c in
  let y := YearFromTime lt in
  host t true = c →
  host (TimeFromYear y) false = c →
  host (TimeFromYear y - c) true = c →
  ¬ (0 <= y <= 99) →
  Z.abs (TimeFromYear y - c) <= maxTime →
  Zoned.getWeekNumberByDate host (Num t) = Num (week_of_year lt).
Proof.
  intros lt y Hc Hc0 Hc1 Hyear Hrange.
  unfold Zoned.getWeekNumberByDate, Zoned.getFullYear, Zoned.getDay, on_time,
    Zoned.new_Date_ymd.
  assert (Hlt : Zoned.LocalTime host t = lt)
    by (unfold Zoned.LocalTime, lt; by rewrite Hc).
  rewrite !Hlt. fold y.
  assert (Hyr : (0 <=? y) && (y <=? 99) = false).
  { apply andb_false_iff. rewrite Z.leb_gt, Z.leb_gt. lia. }
  rewrite Hyr.
  assert (Hstart : MakeDate (MakeDay y 0 1) (MakeTime 0 0 0 0) = TimeFromYear y).
  { unfold MakeDate, MakeDay, MakeTime, TimeFromYear; cbv zeta.
    change (0 / 12) with 0. change (0 mod 12) with 0.
    replace (y + 0) with y by lia.
    unfold DayOfMonthStart, msPerHour, msPerMinute, msPerSecond. lia. }
  rewrite Hstart. unfold Zoned.UTC. rewrite Hc0.
  rewrite (TimeClip_in_range _ Hrange).
  unfold Zoned.LocalTime. rewrite Hc1.
  replace (TimeFromYear y - c + c) with (TimeFromYear y) by lia.
  unfold week_of_year, January_1_offset. fold y.
  assert (Hdays : (t - (TimeFromYear y - c)) / (24 * 60 * 60 * 1000)
                  = DayWithinYear lt).
  { unfold DayWithinYear, Day, TimeFromYear. fold y. unfold lt.
    change (24 * 60 * 60 * 1000) with msPerDay. unfold msPerDay. div_lia. }
  unfold number_sub, floor_div. rewrite Hdays.
  unfold number_eq.
  destruct (WeekDay (TimeFromYear y) =? 0); unfold number_add, ceil_div;
    f_equal; div_lia.
Qed.

(** X20. For a valid date whose local year is outside 0..99, on a host
    whose offset is the same at the date and at the start of its local year
    (a date in the range), [getWeekNumberByDate] is the number of days since
    January 1 of the local year, plus the Monday=1..Sunday=7 place of that
    January 1 in its week, divided by 7 and rounded up: a number from 1 to
    54, and 1 on January 1 itself. *)
Theorem getWeekNumberByDate_week_of_year (host : Z → bool → Z) (t c : Z) :
  let lt := t + c in
  let y := YearFromTime lt in
  host t true = c →
  host (TimeFromYear y) false = c →
  host (TimeFromYear y - c) true = c →
  ¬ (0 <= y <= 99) →
  Z.abs (TimeFromYear y - c) <= maxTime →
  Zoned.getWeekNumberByDate host (Num t) = Num (week_of_year lt)
  ∧ 7 * (week_of_year lt - 1) < DayWithinYear lt + January_1_offset lt
    <= 7 * week_of_year lt
  ∧ 1 <= week_of_year lt <= 54
  ∧ (DayWithinYear lt = 0 → week_of_year lt = 1).
Proof.
  intros lt y Hc Hc0 Hc1 Hyear Hrange.
  split; [by apply Zoned_getWeekNumberByDate_formula|].
  pose proof (DayWithinYear_range lt) as Hd.
  pose proof (January_1_offset_range lt) as Ho.
  destruct (DaysInYear_cases (YearFromTime lt)) as [Hy|Hy]; rewrite Hy in Hd;
    unfold week_of_year; repeat split; try intros ->; div_lia.
Qed.

Lemma getWeekNumberByDate_week_of_year_witness :
  new_york_2024 1708689600000 true = -18000000
  ∧ new_york_2024 (TimeFromYear (YearFromTime (1708689600000 + -18000000)))
      false = -18000000
  ∧ new_york_2024
      (TimeFromYear (YearFromTime (1708689600000 + -18000000)) - -18000000)
      true = -18000000
  ∧ ¬ (0 <= YearFromTime (1708689600000 + -18000000) <= 99)
  ∧ Z.abs (TimeFromYear (YearFromTime (1708689600000 + -18000000)) - -18000000)
    <= maxTime
  ∧ Zoned.getWeekNumberByDate new_york_2024 (Num 1708689600000) = Num 8.
Proof.
  assert (Hyear : ¬ (0 <= YearFromTime (1708689600000 + -18000000) <= 99))
    by (vm_compute; intros [_ H]; apply H; reflexivity).
  assert (Hrange : Z.abs (TimeFromYear (YearFromTime
                                          (1708689600000 + -18000000))
                          - -18000000) <= maxTime)
    by (vm_compute; discriminate).
  split; [reflexivity|]. split; [reflexivity|]. split; [reflexivity|].
  split; [exact Hyear|]. split; [exact Hrange|].
  destruct (getWeekNumberByDate_week_of_year new_york_2024 1708689600000
              (-18000000) eq_refl eq_refl eq_refl Hyear Hrange) as [H _].
  rewrite H. reflexivity.
Defined.

(** X21. The week number changes on Mondays only.  On a host whose offset
    is the same at a valid date, at the same time on the next day and at the
    start of their local year (outside 0..99, and a date in the range), the
    week number of the next day is one more if the next day is a Monday in
    local time, and the same otherwise. *)
Theorem getWeekNumberByDate_monday (host : Z → bool → Z) (t c : Z) :
  let lt := t + c in
  let y := YearFromTime lt in
  host t true = c →
  host (t + msPerDay) true = c →
  host (TimeFromYear y) false = c →
  host (TimeFromYear y - c) true = c →
  ¬ (0 <= y <= 99) →
  Z.abs (TimeFromYear y - c) <= maxTime →
  YearFromTime (lt + msPerDay) = y →
  ∃ week : Z,
    Zoned.getWeekNumberByDate host (Num t) = Num week
    ∧ Zoned.getWeekNumberByDate host (Num (t + msPerDay))
      = Num (if WeekDay (lt + msPerDay) =? 1 then week + 1 else week).
Proof.
  intros lt y Hc Hc' Hc0 Hc1 Hyear Hrange Hsame.
  assert (Hlt : t + msPerDay + c = lt + msPerDay) by (unfold lt; lia).
  exists (week_of_year lt).
  split; [by apply Zoned_getWeekNumberByDate_formula|].
  rewrite (Zoned_getWeekNumberByDate_formula host (t + msPerDay) c);
    cbv zeta; rewrite ?Hlt, ?Hsame; try done.
  f_equal.
  unfold week_of_year, January_1_offset, DayWithinYear. rewrite Hsame.
  fold y.
  pose proof (Day_add_days lt 1) as Hday. rewrite Z.mul_1_l in Hday.
  unfold WeekDay, TimeFromYear. rewrite Hday.
  replace (Day (msPerDay * DayFromYear y)) with (DayFromYear y)
    by (rewrite Z.mul_comm; symmetry; apply Day_of_day).
  pose proof (DayWithinYear_range lt) as Hd. unfold DayWithinYear in Hd.
  fold y in Hd.
  repeat case_match; bool_to_prop; div_lia.
Qed.

Lemma getWeekNumberByDate_monday_witness :
  new_york_2024 1704603600000 true = -18000000
  ∧ new_york_2024 (1704603600000 + msPerDay) true = -18000000
  ∧ new_york_2024 (TimeFromYear (YearFromTime (1704603600000 + -18000000)))
      false = -18000000
  ∧ new_york_2024
      (TimeFromYear (YearFromTime (1704603600000 + -18000000)) - -18000000)
      true = -18000000
  ∧ ¬ (0 <= YearFromTime (1704603600000 + -18000000) <= 99)
  ∧ Z.abs (TimeFromYear (YearFromTime (1704603600000 + -18000000)) - -18000000)
    <= maxTime
  ∧ YearFromTime (1704603600000 + -18000000 + msPerDay)
    = YearFromTime (1704603600000 + -18000000)
  ∧ ∃ week : Z,
      Zoned.getWeekNumberByDate new_york_2024 (Num 1704603600000) = Num week
      ∧ Zoned.getWeekNumberByDate new_york_2024 (Num (1704603600000 + msPerDay))
        = Num (week + 1).
Proof.
  assert (Hyear : ¬ (0 <= YearFromTime (1704603600000 + -18000000) <= 99))
    by (vm_compute; intros [_ H]; apply H; reflexivity).
  assert (Hrange : Z.abs (TimeFromYear (YearFromTime
                                          (1704603600000 + -18000000))
                          - -18000000) <= maxTime)
    by (vm_compute; discriminate).
  split; [reflexivity|]. split; [reflexivity|]. split; [reflexivity|].
  split; [reflexivity|]. split; [exact Hyear|]. split; [exact Hrange|].
  split; [reflexivity|].
  destruct (getWeekNumberByDate_monday new_york_2024 1704603600000 (-18000000)
              eq_refl eq_refl eq_refl eq_refl Hyear Hrange eq_refl)
    as (week & Hweek & Hnext).
  exists week. split; [exact Hweek|exact Hnext].
Defined.

(** Without that, the count of days can fall an hour short of a whole day.
    On the host [new_york_2024], Monday March 11 at local midnight
    (2024-03-11T04:00:00Z) is 70 days less one hour after the local midnight
    of January 1: [getWeekNumberByDate] counts 69 days and gives week 10,
    as it does for the Sunday before (at 2024-03-10T16:00:00Z), where the
    days elapsed give week 11. *)
Lemma getWeekNumberByDate_daylight_saving :
  let t := 1710129600000 in
  let lt := Zoned.LocalTime new_york_2024 t in
  Zoned.getDay new_york_2024 (Num t) = Num 1
  ∧ DayWithinYear lt = 70
  ∧ week_of_year lt = 11
  ∧ Zoned.getWeekNumberByDate new_york_2024 (Num t) = Num 10
  ∧ Zoned.getDay new_york_2024 (Num 1710086400000) = Num 0
  ∧ Zoned.getWeekNumberByDate new_york_2024 (Num 1710086400000) = Num 10.
Proof. cbv zeta. repeat split; vm_compute; reflexivity. Qed.

(** * The schedule and the period as it is written *)







